(** * DataScrapping.py: the resumable batch scraper of daily box-office tables

    A shallow embedding of [src/DataScrapping.py] and the properties of its
    filename sanitiser, its fetcher and its batch scheduler.

    - Python [str] is [string]; [str.replace], [str.rstrip] and
      [os.path.join] are written out.
    - Python [int] is [Z]; slices follow Python's rules for negative and
      out-of-range bounds.
    - A [pandas] frame of scraped rows is a list of dictionaries, a dictionary
      an association list in insertion order.
    - Code that can raise lives in the [py] monad (a value or an exception);
      the scheduler threads its mutable state explicitly.
    - The network, the disk and the order in which workers finish are
      parameters, collected in the record [world]. *)

From Stdlib Require Import ZArith List String Ascii Bool Lia Permutation.
From Stdlib Require Import Numbers.DecimalString Sorting.Sorted.
Import ListNotations.

Local Open Scope string_scope.
Local Open Scope Z_scope.

(** ** Python strings *)

Module PyStr.

(** [s.replace(old, new)] for a non-empty [old] (every call of the source):
    occurrences are replaced left to right and do not overlap.  [skip] counts
    the characters of a matched occurrence still to be passed over. *)
Fixpoint replace_from (old new : string) (skip : nat) (s : string) : string :=
  match s with
  | EmptyString => EmptyString
  | String c s' =>
      match skip with
      | S n => replace_from old new n s'
      | O =>
          if prefix old s
          then new ++ replace_from old new (String.length old - 1) s'
          else String c (replace_from old new 0 s')
      end
  end.

Definition replace (old new s : string) : string := replace_from old new 0 s.

(** [s.rstrip(ch)] for a single character [ch]. *)
Fixpoint rstrip (ch : ascii) (s : string) : string :=
  match s with
  | EmptyString => EmptyString
  | String c s' =>
      match rstrip ch s' with
      | EmptyString => if Ascii.eqb c ch then EmptyString else String c EmptyString
      | r => String c r
      end
  end.

(** [s.startswith(ch)] and [s.endswith(ch)] for a single character. *)
Definition startswith (ch : ascii) (s : string) : bool :=
  match s with
  | String c _ => Ascii.eqb c ch
  | EmptyString => false
  end.

Fixpoint endswith (ch : ascii) (s : string) : bool :=
  match s with
  | EmptyString => false
  | String c EmptyString => Ascii.eqb c ch
  | String _ s' => endswith ch s'
  end.

(** [ch in s]. *)
Fixpoint contains (ch : ascii) (s : string) : bool :=
  match s with
  | EmptyString => false
  | String c s' => Ascii.eqb c ch || contains ch s'
  end.

(** [str(n)] for an integer. *)
Definition of_int (n : Z) : string := NilZero.string_of_int (Z.to_int n).

End PyStr.

(** ** [create_safe_filename] *)

Definition invalid_chars : list ascii :=
  ["<"; ">"; ":"; "034"; "/"; "\"; "|"; "?"; "*"; "'"]%char.

(** The body of [for char in invalid_chars]. *)
Definition remove_char (safe_name : string) (char : ascii) : string :=
  PyStr.replace (String char "") "" safe_name.

Definition create_safe_filename (movie_name : string) : string :=
  let safe_name := fold_left remove_char invalid_chars movie_name in
  let safe_name := PyStr.replace "__" "_" (PyStr.replace " " "_" safe_name) in
  PyStr.rstrip "." safe_name.

(** ** Exceptions

    Only the distinction the source makes is kept: the inner handler of the
    fetcher catches [requests.exceptions.RequestException] (and its
    subclasses, [HTTPError] among them), every other handler catches
    [Exception]. *)

Inductive exn : Type :=
| RequestException (msg : string)
| OtherException (msg : string).

(** [str(e)] *)
Definition str (e : exn) : string :=
  match e with
  | RequestException msg => msg
  | OtherException msg => msg
  end.

Inductive py (A : Type) : Type :=
| Return (a : A)
| Raise (e : exn).

Arguments Return {A} a.
Arguments Raise {A} e.

Module Py.

Definition bind {A B} (m : py A) (k : A -> py B) : py B :=
  match m with
  | Return a => k a
  | Raise e => Raise e
  end.

(** [try: m  except Exception as e: h e] *)
Definition try_except {A} (m : py A) (h : exn -> py A) : py A :=
  match m with
  | Return a => Return a
  | Raise e => h e
  end.

(** [try: m  except requests.exceptions.RequestException as e: h e] *)
Definition try_except_request {A} (m : py A) (h : exn -> py A) : py A :=
  match m with
  | Raise (RequestException msg) => h (RequestException msg)
  | other => other
  end.

End Py.

Notation "x <- m ;; k" := (Py.bind m (fun x => k))
  (at level 61, m at next level, right associativity).

(** ** Scraped data *)

(** A Python [dict] from column name to cell text, in insertion order. *)
Definition dict : Type := list (string * string).

(** [d[k] = v]: an existing key keeps its place. *)
Fixpoint dict_set (k v : string) (d : dict) : dict :=
  match d with
  | [] => [(k, v)]
  | (k', v') :: d' =>
      if String.eqb k' k then (k, v) :: d' else (k', v') :: dict_set k v d'
  end.

Definition dict_has (k : string) (d : dict) : bool :=
  existsb (fun kv => String.eqb (fst kv) k) d.

(** [dict(zip(keys, values))] *)
Definition dict_of_zip (keys values : list string) : dict :=
  fold_left (fun d kv => dict_set (fst kv) (snd kv) d) (combine keys values) [].

(** A frame built from a list of row dictionaries. *)
Definition dataframe : Type := list dict.

(** [column in df.columns] *)
Definition has_column (column : string) (df : dataframe) : bool :=
  existsb (dict_has column) df.

(** [df[column] = df[column].str.replace(old, new, regex=False)] *)
Definition column_str_replace (column old new : string) (df : dataframe)
  : dataframe :=
  map (map (fun kv =>
              if String.eqb (fst kv) column
              then (fst kv, PyStr.replace old new (snd kv)) else kv)) df.

(** [pd.concat(frames, ignore_index=True)], rows only. *)
Definition pd_concat (frames : list dataframe) : dataframe := List.concat frames.

(** ** The network *)

(** What BeautifulSoup finds in a document: the heading
    [<h2>Daily Box Office Performance</h2>], the table after it, and for that
    table the stripped cell texts of each [tr], in document order. *)
Inductive page : Type :=
| NoHeading
| HeadingNoTable
| HeadingTable (trs : list (list string)).

(** A response: [raise_for_status] raises [HTTPError] with the given message
    when [status_error] is set. *)
Record response : Type := {
  status_error : option string;
  soup : page
}.

Definition raise_for_status (r : response) : py unit :=
  match status_error r with
  | Some msg => Raise (RequestException msg)
  | None => Return tt
  end.

(** A numeric cell of the catalog: a number with integer part [z], or NaN. *)
Inductive pynum : Type :=
| Num (z : Z)
| NaN.

(** [int(x)] *)
Definition py_int (x : pynum) : py Z :=
  match x with
  | Num z => Return z
  | NaN => Raise (OtherException "cannot convert float NaN to integer")
  end.

(** One entry handed to a worker. *)
Record movie_data : Type := {
  md_movie_name : string;
  md_release_year : pynum;
  md_idx : Z;
  md_output_folder : string;
  md_project_root : string
}.

(** Everything outside the program.  [to_csv path] is the error, if any, of
    writing a frame to [path]; [progress_to_csv k path] the same for the two
    files rewritten after every batch, [k] being the batch; [as_completed k]
    is the order in which the workers of batch [k] finish. *)
Record world : Type := {
  requests_get : string -> py response;
  to_csv : string -> option exn;
  progress_to_csv : nat -> string -> option exn;
  os_path_relpath : string -> string -> string;
  as_completed : nat -> list movie_data -> list movie_data
}.

(** The pool runs every submitted task: completion is a reordering. *)
Definition completes_all (w : world) : Prop :=
  forall k l, Permutation (as_completed w k l) l.

(** ** [scrape_daily_box_office] *)

Section Fetcher.

Variable w : world.

(** The body of [if daily_table:]; [find('tr')] is the first [tr], and is
    [None] in a table without rows. *)
Definition parse_table (movie_name : string) (trs : list (list string))
  : py (option dataframe) :=
  match trs with
  | [] => Raise (OtherException "'NoneType' object has no attribute 'find_all'")
  | table_headers :: rows =>
      let all_data :=
        flat_map
          (fun row_data =>
             if Nat.eqb (List.length row_data) (List.length table_headers)
             then [dict_set "Movie_Name" movie_name
                            (dict_of_zip table_headers row_data)]
             else [])
          rows in
      match all_data with
      | [] => Return None
      | _ =>
          let df := all_data in
          let df :=
            if has_column "Gross" df
            then column_str_replace "Gross" "," ""
                   (column_str_replace "Gross" "$" "" df)
            else df in
          Return (Some df)
      end
  end.

(** One iteration of [for url in urls]: [Some df] is [return df, None],
    [None] goes on to the next URL. *)
Definition try_url (movie_name url : string) : py (option dataframe) :=
  Py.try_except_request
    (response <- requests_get w url ;;
     _ <- raise_for_status response ;;
     match soup response with
     | HeadingTable trs => parse_table movie_name trs
     | HeadingNoTable => Return None
     | NoHeading => Return None
     end)
    (fun _ => Return None).

Fixpoint for_urls (movie_name : string) (urls : list string)
  : py (option dataframe * option string) :=
  match urls with
  | [] => Return (None, Some "No data found")
  | url :: urls' =>
      r <- try_url movie_name url ;;
      match r with
      | Some df => Return (Some df, None)
      | None => for_urls movie_name urls'
      end
  end.

Definition candidate_urls (movie_name : string) (year : Z) : list string :=
  let url_name :=
    PyStr.replace " " "-"
      (PyStr.replace "&" "and" (PyStr.replace ":" "" movie_name)) in
  let url_primary :=
    "https://www.the-numbers.com/movie/" ++ url_name ++ "-("
      ++ PyStr.of_int year ++ ")#tab=box-office" in
  let url_secondary :=
    "https://www.the-numbers.com/movie/" ++ url_name ++ "#tab=box-office" in
  [url_primary; url_secondary].

(** The [try] block of the function, before the outer handler. *)
Definition scrape_body (movie_name : string) (release_year : pynum)
  : py (option dataframe * option string) :=
  year <- py_int release_year ;;
  for_urls movie_name (candidate_urls movie_name year).

Definition scrape_daily_box_office (movie_name : string) (release_year : pynum)
  : py (option dataframe * option string) :=
  Py.try_except (scrape_body movie_name release_year)
                (fun e => Return (None, Some (str e))).

End Fetcher.

(** ** [os.path] *)

(** [os.path.join(a, b)] (POSIX flavour). *)
Definition os_path_join (a b : string) : string :=
  if PyStr.startswith "/" b then b
  else if String.eqb a "" || PyStr.endswith "/" a then a ++ b
  else a ++ "/" ++ b.

(** ** The catalog *)

(** A row of [metadata_df]: its index label and the columns the program
    reads.  [daily_box_office_path] is [None] where the cell is NaN. *)
Record row : Type := {
  idx : Z;
  movie_name : string;
  release_year : pynum;
  daily_box_office_path : option string
}.

(** [pd.isna] *)
Definition isna {A} (x : option A) : bool :=
  match x with
  | None => true
  | Some _ => false
  end.

(** A row of the metadata file as [pd.read_csv] delivers it. *)
Record csv_row : Type := {
  original_title : string;
  csv_release_year : pynum;
  csv_daily_box_office_path : option string
}.

(** [pd.read_csv]: rows are labelled 0, 1, 2, ... *)
Fixpoint read_csv_from (label : Z) (rows : list csv_row) : list row :=
  match rows with
  | [] => []
  | r :: rows' =>
      {| idx := label;
         movie_name := original_title r;
         release_year := csv_release_year r;
         daily_box_office_path := csv_daily_box_office_path r |}
        :: read_csv_from (label + 1) rows'
  end.

(** [x >= 2010]; a comparison with NaN is false. *)
Definition ge_2010 (x : pynum) : bool :=
  match x with
  | Num z => 2010 <=? z
  | NaN => false
  end.

(** [load_and_validate_metadata] on a file that has the required columns:
    the boolean mask keeps the labels of the rows it keeps. *)
Definition load_and_validate_metadata (rows : list csv_row) : list row :=
  filter (fun r => ge_2010 (release_year r)) (read_csv_from 0 rows).

(** The bound of a Python slice on a sequence of length [len]. *)
Definition slice_bound (len i : Z) : Z :=
  if i <? 0 then Z.max 0 (i + len) else Z.min i len.

(** [df.iloc[a:b]] *)
Definition iloc {A} (df : list A) (a b : Z) : list A :=
  let len := Z.of_nat (List.length df) in
  let lo := slice_bound len a in
  let hi := slice_bound len b in
  firstn (Z.to_nat (hi - lo)) (skipn (Z.to_nat lo) df).

(** [df.loc[label, 'daily_box_office_path'] = path]: every row carrying the
    label is assigned.  The label always comes from [iterrows] over the same
    frame, so the frame is never enlarged. *)
Definition loc_set_path (label : Z) (path : string) (df : list row) : list row :=
  map (fun r =>
         if idx r =? label
         then {| idx := idx r;
                 movie_name := movie_name r;
                 release_year := release_year r;
                 daily_box_office_path := Some path |}
         else r) df.

(** ** [process_movie_batch] *)

(** The dictionary a worker returns, by its ['success'] flag. *)
Inductive result : Type :=
| Success (name : string) (label : Z) (data : dataframe) (path : string)
| Failure (name : string) (label : Z) (error : option string).

Definition df_to_csv (outcome : option exn) : py unit :=
  match outcome with
  | Some e => Raise e
  | None => Return tt
  end.

(** The per-entry output location of lines 149-150. *)
Definition movie_filename (output_folder movie_name : string) : string :=
  let safe_movie_name := create_safe_filename movie_name in
  os_path_join output_folder (safe_movie_name ++ "_daily.csv").

Definition process_movie_batch (w : world) (md : movie_data) : py result :=
  let movie_name := md_movie_name md in
  let release_year := md_release_year md in
  let idx := md_idx md in
  let output_folder := md_output_folder md in
  let project_root := md_project_root md in
  Py.try_except
    (r <- scrape_daily_box_office w movie_name release_year ;;
     let (movie_df, error) := r in
     match movie_df with
     | Some movie_df =>
         let movie_filename := movie_filename output_folder movie_name in
         _ <- df_to_csv (to_csv w movie_filename) ;;
         let relative_path := os_path_relpath w movie_filename project_root in
         Return (Success movie_name idx movie_df relative_path)
     | None => Return (Failure movie_name idx error)
     end)
    (fun e => Return (Failure movie_name idx (Some (str e)))).

(** ** [parallel_scrape_movies] *)

(** A row of the error log. *)
Record error_entry : Type := {
  err_movie : string;
  err_error : option string;
  err_row : Z
}.

(** What the scheduler does to the outside, in order. *)
Inductive event : Type :=
| Submitted (batch_num : nat) (md : movie_data)
| SavedMetadata (batch_num : nat)
| SavedErrorLog (batch_num : nat)
| SavedCombined.

(** The variables the loops mutate, and the events so far.  [SavedMetadata]
    and [SavedErrorLog] record the attempt, whether or not it succeeds. *)
Record state : Type := {
  metadata_df : list row;
  error_log : list error_entry;
  all_movies_data : list dataframe;
  trace : list event
}.

Definition log (evs : list event) (st : state) : state :=
  {| metadata_df := metadata_df st;
     error_log := error_log st;
     all_movies_data := all_movies_data st;
     trace := (trace st ++ evs)%list |}.

(** [for x in xs: body], stopped by the first exception. *)
Fixpoint for_each {X} (body : X -> state -> py unit * state) (xs : list X)
  (st : state) : py unit * state :=
  match xs with
  | [] => (Return tt, st)
  | x :: xs' =>
      match body x st with
      | (Return _, st') => for_each body xs' st'
      | (Raise e, st') => (Raise e, st')
      end
  end.

Section Scheduler.

Variable w : world.
Variables metadata_path output_folder project_root : string.
Variables start_row batch_size max_workers : Z.

Definition error_log_path : string := os_path_join output_folder "error_log.csv".

Definition combined_filename : string :=
  os_path_join output_folder "all_movies_daily_data.csv".

Definition batch_df (df : list row) (batch_num : nat) : list row :=
  let batch_start := start_row + Z.of_nat batch_num * batch_size in
  let batch_end := Z.min (batch_start + batch_size) (Z.of_nat (List.length df)) in
  iloc df batch_start batch_end.

Definition make_movie_data (r : row) : movie_data :=
  {| md_movie_name := movie_name r;
     md_release_year := release_year r;
     md_idx := idx r;
     md_output_folder := output_folder;
     md_project_root := project_root |}.

Definition batch_data (df : list row) (batch_num : nat) : list movie_data :=
  map make_movie_data
      (filter (fun r => isna (daily_box_office_path r)) (batch_df df batch_num)).

(** The body of [for future in as_completed(futures)]. *)
Definition collect (md : movie_data) (st : state) : py unit * state :=
  match process_movie_batch w md with
  | Raise e => (Raise e, st)
  | Return (Success _ label data path) =>
      (Return tt,
       {| metadata_df := loc_set_path label path (metadata_df st);
          error_log := error_log st;
          all_movies_data := (all_movies_data st ++ [data])%list;
          trace := trace st |})
  | Return (Failure name label error) =>
      (Return tt,
       {| metadata_df := metadata_df st;
          error_log :=
            (error_log st
               ++ [{| err_movie := name; err_error := error; err_row := label |}])%list;
          all_movies_data := all_movies_data st;
          trace := trace st |})
  end.

(** The body of [for batch_num in range(total_batches)]. *)
Definition run_batch (batch_num : nat) (st : state) : py unit * state :=
  match batch_data (metadata_df st) batch_num with
  | [] => (Return tt, st)
  | md :: mds =>
      let batch := md :: mds in
      if max_workers <=? 0
      then (Raise (OtherException "max_workers must be greater than 0"), st)
      else
        let st := log (map (Submitted batch_num) batch) st in
        match for_each collect (as_completed w batch_num batch) st with
        | (Raise e, st) => (Raise e, st)
        | (Return _, st) =>
            let st := log [SavedMetadata batch_num] st in
            match progress_to_csv w batch_num metadata_path with
            | Some e => (Raise e, st)
            | None =>
                let st := log [SavedErrorLog batch_num] st in
                match progress_to_csv w batch_num error_log_path with
                | Some e => (Raise e, st)
                | None => (Return tt, st)
                end
            end
        end
  end.

Definition initial_state (df : list row) : state :=
  {| metadata_df := df; error_log := []; all_movies_data := []; trace := [] |}.

Definition total_batches (df : list row) : Z :=
  let total_rows := Z.of_nat (List.length df) - start_row in
  (total_rows + batch_size - 1) / batch_size.

Definition parallel_scrape_movies (df : list row)
  : py (option dataframe) * state :=
  let st := initial_state df in
  if batch_size =? 0
  then (Raise (OtherException "integer division or modulo by zero"), st)
  else
    match for_each run_batch (seq 0 (Z.to_nat (total_batches df))) st with
    | (Raise e, st) => (Raise e, st)
    | (Return _, st) =>
        match all_movies_data st with
        | [] => (Return None, st)
        | _ =>
            let combined_df := pd_concat (all_movies_data st) in
            let st := log [SavedCombined] st in
            match to_csv w combined_filename with
            | None => (Return (Some combined_df), st)
            | Some _ => (Return (Some (pd_concat (all_movies_data st))), st)
            end
        end
    end.

(** The [try] block around the call at the end of the script: what it
    prints last, and how it ends. *)
Definition main_try_block (df : list row) : py unit * state * string :=
  match parallel_scrape_movies df with
  | (Return _, st) => (Return tt, st, "Scraping completed successfully!")
  | (Raise e, st) => (Raise e, st, "Error occurred during scraping: " ++ str e)
  end.

End Scheduler.

(** The entries a trace shows as submitted, all of them or those of one batch. *)
Definition submitted (tr : list event) : list movie_data :=
  flat_map (fun ev => match ev with Submitted _ md => [md] | _ => [] end) tr.

Definition submitted_in (batch_num : nat) (tr : list event) : list movie_data :=
  flat_map (fun ev =>
              match ev with
              | Submitted k md => if Nat.eqb k batch_num then [md] else []
              | _ => []
              end) tr.

(** The Item Filter of the specification: the entries at or after the start
    offset whose completion marker is absent, in catalog order. *)
Definition filtered_entries (df : list row) (start_row : Z) : list row :=
  filter (fun r => isna (daily_box_office_path r)) (skipn (Z.to_nat start_row) df).

(** ** Test data *)

Module Demo.

Definition table : page :=
  HeadingTable
    [["Date"; "Rank"; "Gross"; "Theaters"];
     ["2015/01/01"; "1"; "$1,234,567"; "3,000"];
     ["broken"; "row"; "3 cells"];
     ["2015/01/02"; "2"; "$999"; "2,900"]].

Definition url_movie_a : string :=
  "https://www.the-numbers.com/movie/Movie-A-(2015)#tab=box-office".

Definition malformed_only : response :=
  {| status_error := None;
     soup := HeadingTable [["Date"; "Rank"; "Gross"; "Theaters"]; ["a"; "b"; "c"]] |}.

Definition ok (p : page) : py response :=
  Return {| status_error := None; soup := p |}.

(** A site that knows "Movie A" (2015), "Movie B" under its plain name, whose
    pages for "Empty" have a table with a malformed row only, whose page for
    "Bare" (2015) has a table without rows while the page under the plain
    name is complete, and that answers 404 to everything else. *)
Definition site (url : string) : py response :=
  if String.eqb url url_movie_a
  then ok table
  else if String.eqb url "https://www.the-numbers.com/movie/Movie-B#tab=box-office"
  then ok table
  else if String.eqb url "https://www.the-numbers.com/movie/Empty#tab=box-office"
  then Return malformed_only
  else if String.eqb url "https://www.the-numbers.com/movie/Empty-(2015)#tab=box-office"
  then Return malformed_only
  else if String.eqb url "https://www.the-numbers.com/movie/Bare-(2015)#tab=box-office"
  then ok (HeadingTable [])
  else if String.eqb url "https://www.the-numbers.com/movie/Bare#tab=box-office"
  then ok table
  else Return {| status_error := Some "404 Client Error"; soup := NoHeading |}.

(** [os.path.relpath] as cutting a shared prefix is enough here. *)
Definition relpath (path start : string) : string :=
  substring (String.length start + 1) (String.length path) path.

Definition world_of (order : nat -> list movie_data -> list movie_data)
  (progress : nat -> string -> option exn) : world :=
  {| requests_get := site;
     to_csv := fun _ => None;
     progress_to_csv := progress;
     os_path_relpath := relpath;
     as_completed := order |}.

Definition in_order : nat -> list movie_data -> list movie_data := fun _ l => l.
Definition reversed : nat -> list movie_data -> list movie_data := fun _ l => rev l.
Definition disk_ok : nat -> string -> option exn := fun _ _ => None.
Definition disk_full : nat -> string -> option exn :=
  fun _ _ => Some (OtherException "[Errno 28] No space left on device").

Definition csv (title : string) (year : Z) (path : option string) : csv_row :=
  {| original_title := title; csv_release_year := Num year;
     csv_daily_box_office_path := path |}.

(** A catalog whose first entry was fetched by an earlier run. *)
Definition resumed : list row :=
  load_and_validate_metadata
    [csv "Movie A" 2015 (Some "out/Movie_A_daily.csv"); csv "Movie B" 2016 None;
     csv "Movie C" 2017 None].

Definition catalog : list row :=
  load_and_validate_metadata
    [csv "Old Movie" 1999 None; csv "Movie A" 2015 None; csv "Movie B" 2016 None;
     csv "Movie C" 2017 None].

(** A catalog of titles the site does not know. *)
Definition unknown : list row :=
  load_and_validate_metadata [csv "Movie C" 2017 None; csv "Movie D" 2018 None].

Definition run (w : world) (df : list row) (start_row batch_size max_workers : Z) :=
  parallel_scrape_movies w "meta.csv" "root/out" "root" start_row batch_size
                         max_workers df.

Definition w_ok : world := world_of in_order disk_ok.
Definition w_reversed : world := world_of reversed disk_ok.
Definition w_disk_full : world := world_of in_order disk_full.

End Demo.

(** ** The run in closed form *)

(** What the scheduler takes from the result of one worker. *)
Definition success_data (w : world) (md : movie_data) : list dataframe :=
  match process_movie_batch w md with
  | Return (Success _ _ data _) => [data]
  | _ => []
  end.

Definition success_mark (w : world) (md : movie_data) : list (Z * string) :=
  match process_movie_batch w md with
  | Return (Success _ label _ path) => [(label, path)]
  | _ => []
  end.

Definition failure_entry (w : world) (md : movie_data) : list error_entry :=
  match process_movie_batch w md with
  | Return (Failure name label error) =>
      [{| err_movie := name; err_error := error; err_row := label |}]
  | _ => []
  end.

Definition succeeded (w : world) (md : movie_data) : bool :=
  match process_movie_batch w md with
  | Return (Success _ _ _ _) => true
  | _ => false
  end.

(** A row after the assignments [marks], oldest first. *)
Definition mark_row (marks : list (Z * string)) (r : row) : row :=
  fold_left
    (fun r m =>
       if idx r =? fst m
       then {| idx := idx r;
               movie_name := movie_name r;
               release_year := release_year r;
               daily_box_office_path := Some (snd m) |}
       else r)
    marks r.

Section ClosedForm.

Variable w : world.
Variables output_folder project_root : string.
Variables start_row batch_size : Z.
Variable df : list row.

(** The entries of batch [k] of the catalog as first loaded, in the order
    their workers finish. *)
Definition completed (k : nat) : list movie_data :=
  as_completed w k (batch_data output_folder project_root start_row batch_size df k).

Definition batch_events (k : nat) : list event :=
  match batch_data output_folder project_root start_row batch_size df k with
  | [] => []
  | batch => (map (Submitted k) batch ++ [SavedMetadata k; SavedErrorLog k])%list
  end.

(** The state once batches [0 .. k-1] are done and saved. *)
Definition state_after (k : nat) : state :=
  let done := flat_map completed (seq 0 k) in
  {| metadata_df := map (mark_row (flat_map (success_mark w) done)) df;
     error_log := flat_map (failure_entry w) done;
     all_movies_data := flat_map (success_data w) done;
     trace := flat_map batch_events (seq 0 k) |}.

(** The state once the workers of batch [k] are collected, before saving. *)
Definition state_collected (k : nat) : state :=
  {| metadata_df := metadata_df (state_after (S k));
     error_log := error_log (state_after (S k));
     all_movies_data := all_movies_data (state_after (S k));
     trace :=
       (trace (state_after k)
          ++ map (Submitted k)
                 (batch_data output_folder project_root start_row batch_size
                             df k))%list |}.

(** The record sets of the entries that succeed, in catalog order and in
    the order of completion. *)
Definition catalog_order_data : list dataframe :=
  flat_map (success_data w)
           (map (make_movie_data output_folder project_root)
                (filtered_entries df start_row)).

Definition completion_order_data (batches : nat) : list dataframe :=
  flat_map (fun k => flat_map (success_data w) (completed k)) (seq 0 batches).

End ClosedForm.

(** What [parallel_scrape_movies] returns for the collected record sets. *)
Definition combined (frames : list dataframe) : option dataframe :=
  match frames with
  | [] => None
  | _ => Some (pd_concat frames)
  end.

(** The two files written after every batch can be written in batch [k]. *)
Definition progress_saved (w : world) (metadata_path output_folder : string)
  (k : nat) : Prop :=
  progress_to_csv w k metadata_path = None
  /\ progress_to_csv w k (error_log_path output_folder) = None.

(** ** The statements of the specification *)

(** Two separators in a row somewhere in a name. *)
Fixpoint has_double_separator (s : string) : bool :=
  match s with
  | String c s' =>
      (Ascii.eqb c "_" && PyStr.startswith "_" s') || has_double_separator s'
  | EmptyString => false
  end.

(** The record set the specification describes for a table: one record per
    data row with as many cells as the header, the rows with another cell
    count left out, [Gross] stripped of its currency sign and commas. *)
Definition well_formed (table_headers row_data : list string) : bool :=
  Nat.eqb (List.length row_data) (List.length table_headers).

Definition spec_record_set (movie_name : string) (table_headers : list string)
  (rows : list (list string)) : dataframe :=
  let records :=
    map (fun row_data =>
           dict_set "Movie_Name" movie_name (dict_of_zip table_headers row_data))
        (filter (well_formed table_headers) rows) in
  if has_column "Gross" records
  then column_str_replace "Gross" "," "" (column_str_replace "Gross" "$" "" records)
  else records.

(** C6 as the specification words it: whatever the rows of the table found at
    [url], the fetch of that candidate succeeds with the well-formed ones. *)
Definition malformed_rows_never_fail (w : world) (movie_name url : string)
  : Prop :=
  forall resp table_headers rows,
    requests_get w url = Return resp ->
    status_error resp = None ->
    soup resp = HeadingTable (table_headers :: rows) ->
    try_url w movie_name url
    = Return (Some (spec_record_set movie_name table_headers rows)).

(** An exception [e] raised while the candidate [url] is fetched and parsed:
    by [requests.get], by [raise_for_status], or by the reading of the
    table. *)
Definition raised_at (w : world) (movie_name url : string) (e : exn) : Prop :=
  requests_get w url = Raise e
  \/ exists resp,
       requests_get w url = Return resp
       /\ (raise_for_status resp = Raise e
           \/ (status_error resp = None
               /\ exists trs,
                    soup resp = HeadingTable trs
                    /\ parse_table movie_name trs = Raise e)).

(** C5 as the specification words it: an exception raised during fetch or
    parse - here at the first candidate, which is always tried - comes back
    as a failure carrying the exception's message. *)
Definition exceptions_carry_their_message (w : world) (movie_name : string)
  (year : Z) : Prop :=
  forall primary urls e,
    candidate_urls movie_name year = primary :: urls ->
    raised_at w movie_name primary e ->
    scrape_daily_box_office w movie_name (Num year)
    = Return (None, Some (str e)).

(** C10 as the specification words it: a candidate whose heading and table
    are found but whose table gives no well-formed data row is passed over
    for the next candidate. *)
Definition rowless_tables_fall_through (w : world) (movie_name : string)
  : Prop :=
  forall url urls resp trs,
    requests_get w url = Return resp ->
    status_error resp = None ->
    soup resp = HeadingTable trs ->
    filter (well_formed (hd [] trs)) (tl trs) = [] ->
    for_urls w movie_name (url :: urls) = for_urls w movie_name urls.

(** Per-entry output locations are pairwise distinct over a catalog. *)
Definition output_locations_disjoint (output_folder : string) (df : list row)
  : Prop :=
  forall r1 r2,
    In r1 df -> In r2 df -> r1 <> r2 ->
    movie_filename output_folder (movie_name r1)
    <> movie_filename output_folder (movie_name r2).

(** The batch an event belongs to. *)
Definition event_batch (ev : event) : option nat :=
  match ev with
  | Submitted k _ => Some k
  | SavedMetadata k => Some k
  | SavedErrorLog k => Some k
  | SavedCombined => None
  end.

Section Stated.

Variables w w' : world.
Variables metadata_path output_folder project_root : string.
Variables start_row batch_size max_workers : Z.
Variable df : list row.

(** C1 as the specification words it: the entries submitted over the run
    are the filtered entries, each one exactly once. *)
Definition submits_filtered_entries_once : Prop :=
  let tr :=
    trace (snd (parallel_scrape_movies w metadata_path output_folder
                  project_root start_row batch_size max_workers df)) in
  Permutation (submitted tr)
              (map (make_movie_data output_folder project_root)
                   (filtered_entries df start_row))
  /\ NoDup (submitted tr).

(** C2 as the specification words it: the combined dataset lists the
    successful record sets in catalog order. *)
Definition aggregates_in_catalog_order : Prop :=
  fst (parallel_scrape_movies w metadata_path output_folder project_root
                              start_row batch_size max_workers df)
  = Return (combined (catalog_order_data w output_folder project_root start_row df)).


(** C4 as the specification words it: after a failed write of the progress
    files in batch [k] the run goes on, and every later batch with
    unprocessed entries is submitted and saved. *)
Definition survives_failed_save : Prop :=
  let run :=
    parallel_scrape_movies w metadata_path output_folder project_root start_row
                           batch_size max_workers df in
  forall k e,
    batch_data output_folder project_root start_row batch_size df k <> [] ->
    progress_to_csv w k metadata_path = Some e ->
    (exists combined_df, fst run = Return combined_df)
    /\ forall j,
         (k < j < Z.to_nat (total_batches start_row batch_size df))%nat ->
         batch_data output_folder project_root start_row batch_size df j <> [] ->
         In (SavedMetadata j) (trace (snd run))
         /\ submitted_in j (trace (snd run))
            = batch_data output_folder project_root start_row batch_size df j.

(** A second run, in world [w'], on the catalog the first run leaves. *)
Definition rerun : py (option dataframe) * state :=
  parallel_scrape_movies w' metadata_path output_folder project_root start_row
    batch_size max_workers
    (metadata_df
       (snd (parallel_scrape_movies w metadata_path output_folder project_root
                                    start_row batch_size max_workers df))).

(** C7 as the specification words it: the second run fetches nothing. *)
Definition second_run_fetches_nothing : Prop :=
  submitted (trace (snd rerun)) = [].

End Stated.

(** ** The rest of the program *)

(** [d.get(k)] *)
Fixpoint dict_get (k : string) (d : dict) : option string :=
  match d with
  | [] => None
  | (k', v) :: d' => if String.eqb k' k then Some v else dict_get k d'
  end.

(** [list(d)]: the keys, in insertion order. *)
Definition dict_keys (d : dict) : list string := map fst d.

(** The name part of the two candidate URLs (line 80). *)
Definition url_name (movie_name : string) : string :=
  PyStr.replace " " "-"
    (PyStr.replace "&" "and" (PyStr.replace ":" "" movie_name)).

(** The row of the metadata file a catalog row stands for. *)
Definition csv_of_row (r : row) : csv_row :=
  {| original_title := movie_name r;
     csv_release_year := release_year r;
     csv_daily_box_office_path := daily_box_office_path r |}.

(** A row once its entry is fetched: the marker is the relative path of the
    entry's file (lines 154 and 247). *)
Definition fetched_row (w : world) (output_folder project_root : string)
  (r : row) : row :=
  if isna (daily_box_office_path r)
     && succeeded w (make_movie_data output_folder project_root r)
  then {| idx := idx r;
          movie_name := movie_name r;
          release_year := release_year r;
          daily_box_office_path :=
            Some (os_path_relpath w (movie_filename output_folder (movie_name r))
                                  project_root) |}
  else r.

Definition catalog_after_run (w : world) (output_folder project_root : string)
  (start_row : Z) (df : list row) : list row :=
  (firstn (Z.to_nat start_row) df
     ++ map (fetched_row w output_folder project_root)
            (skipn (Z.to_nat start_row) df))%list.

(** The world [w] with another disk for the progress files and another order
    of completion. *)
Definition reschedule (w : world) (progress : nat -> string -> option exn)
  (order : nat -> list movie_data -> list movie_data) : world :=
  {| requests_get := requests_get w;
     to_csv := to_csv w;
     progress_to_csv := progress;
     os_path_relpath := os_path_relpath w;
     as_completed := order |}.

(** An answer typed at a prompt of the script: nothing but blanks, an
    integer literal, or a text for which [int] raises [ValueError] with the
    given message. *)
Inductive input_line : Type :=
| Blank
| Number (z : Z)
| NotANumber (message : string).

(** [int(line) if line.strip() else default] *)
Definition int_or_default (line : input_line) (default : Z) : py Z :=
  match line with
  | Blank => Return default
  | Number z => Return z
  | NotANumber message => Raise (OtherException message)
  end.

(** [df.iloc[i]] for an integer [i]: negative positions count from the end,
    a position outside the frame raises [IndexError]. *)
Definition iloc_at {A} (df : list A) (i : Z) : py A :=
  let len := Z.of_nat (List.length df) in
  match nth_error df (Z.to_nat (if i <? 0 then i + len else i)) with
  | Some r =>
      if (- len <=? i) && (i <? len) then Return r
      else Raise (OtherException "single positional indexer is out-of-bounds")
  | None => Raise (OtherException "single positional indexer is out-of-bounds")
  end.

(** The output folder of the script (line 283). *)
Definition script_output_folder (project_root : string) : string :=
  os_path_join (os_path_join (os_path_join project_root "data") "raw")
               "completed_movies".

(** The script after the paths are set (lines 285-318).  [file] is the
    metadata file as read, [None] when it cannot be read or lacks a required
    column, in which case [load_and_validate_metadata] returns [None].  The
    result is how the script ends and, when it got as far as the call of
    [parallel_scrape_movies], the state that call leaves. *)
Definition script (w : world) (metadata_path project_root : string)
  (file : option (list csv_row)) (answer1 answer2 answer3 : input_line)
  : py unit * option state :=
  let output_folder :=
    os_path_join (os_path_join (os_path_join project_root "data") "raw")
                 "completed_movies" in
  match option_map load_and_validate_metadata file with
  | None => (Return tt, None)
  | Some metadata_df =>
      match int_or_default answer1 0 with
      | Raise e => (Raise e, None)
      | Return start_row =>
          match int_or_default answer2 50 with
          | Raise e => (Raise e, None)
          | Return batch_size =>
              match int_or_default answer3 5 with
              | Raise e => (Raise e, None)
              | Return max_workers =>
                  match iloc_at metadata_df start_row with
                  | Raise e => (Raise e, None)
                  | Return _ =>
                      match parallel_scrape_movies w metadata_path output_folder
                              project_root start_row batch_size max_workers
                              metadata_df with
                      | (Return _, st) => (Return tt, Some st)
                      | (Raise e, st) => (Raise e, Some st)
                      end
                  end
              end
          end
      end
  end.

(** * Properties *)

(** ** Strings *)

Lemma append_nil_r (s : string) : s ++ "" = s.
Proof. induction s as [|c s IH]; simpl; [reflexivity | now rewrite IH]. Qed.

Lemma append_inj_l (a b1 b2 : string) : a ++ b1 = a ++ b2 -> b1 = b2.
Proof.
  induction a as [|c a IH]; simpl; intros H; [exact H|].
  injection H as H. auto.
Qed.

Lemma length_append (a b : string) :
  String.length (a ++ b) = (String.length a + String.length b)%nat.
Proof. induction a as [|c a IH]; simpl; [reflexivity | now rewrite IH]. Qed.

Lemma append_inj_r (t a b : string) : a ++ t = b ++ t -> a = b.
Proof.
  revert b. induction a as [|c a IH]; intros [|d b] H; simpl in H.
  - reflexivity.
  - apply (f_equal String.length) in H. simpl in H.
    rewrite length_append in H. lia.
  - apply (f_equal String.length) in H. simpl in H.
    rewrite length_append in H. lia.
  - injection H as Hc H. subst d. f_equal. auto.
Qed.

Lemma contains_append (ch : ascii) (a b : string) :
  PyStr.contains ch (a ++ b) = PyStr.contains ch a || PyStr.contains ch b.
Proof.
  induction a as [|c a IH]; simpl; [reflexivity|].
  now rewrite IH, orb_assoc.
Qed.

(** [replace] brings in no character that is neither in the text nor in the
    replacement. *)
Lemma replace_from_contains (ch : ascii) (old new : string) :
  PyStr.contains ch new = false ->
  forall s skip,
    PyStr.contains ch s = false ->
    PyStr.contains ch (PyStr.replace_from old new skip s) = false.
Proof.
  intros Hnew. induction s as [|c s IH]; intros skip Hs; simpl; [reflexivity|].
  simpl in Hs. apply orb_false_iff in Hs as [Hc Hs].
  destruct skip as [|n]; [|now apply IH].
  match goal with |- context [if ?b then _ else _] => destruct b end.
  - rewrite contains_append, Hnew. simpl. now apply IH.
  - simpl. rewrite Hc. simpl. now apply IH.
Qed.

(** Replacing a single character removes it, unless the replacement has it. *)
Lemma replace_char_gone (ch : ascii) (new s : string) :
  PyStr.contains ch new = false ->
  PyStr.contains ch (PyStr.replace (String ch "") new s) = false.
Proof.
  intros Hnew. unfold PyStr.replace.
  induction s as [|c s IH]; simpl; [reflexivity|].
  destruct (ascii_dec ch c) as [->|Hne].
  - assert (Hp : prefix "" s = true) by now destruct s.
    rewrite Hp, contains_append, Hnew. exact IH.
  - simpl. rewrite IH, orb_false_r. apply Ascii.eqb_neq. congruence.
Qed.

Lemma rstrip_contains (ch d : ascii) (s : string) :
  PyStr.contains ch s = false -> PyStr.contains ch (PyStr.rstrip d s) = false.
Proof.
  induction s as [|c s IH]; simpl; [reflexivity|].
  intros H. apply orb_false_iff in H as [Hc Hs]. specialize (IH Hs).
  destruct (PyStr.rstrip d s) eqn:E.
  - destruct (Ascii.eqb c d); simpl; [reflexivity | now rewrite Hc].
  - change (PyStr.contains ch (String c (String a s0)))
      with (Ascii.eqb c ch || PyStr.contains ch (String a s0)).
    now rewrite Hc, IH.
Qed.

Lemma rstrip_not_endswith (d : ascii) (s : string) :
  PyStr.endswith d (PyStr.rstrip d s) = false.
Proof.
  induction s as [|c s IH]; simpl; [reflexivity|].
  destruct (PyStr.rstrip d s) eqn:E.
  - destruct (Ascii.eqb c d) eqn:Ec; simpl; [reflexivity | exact Ec].
  - exact IH.
Qed.

Lemma fold_remove_keeps_absent (ch : ascii) (chars : list ascii) :
  forall s, PyStr.contains ch s = false ->
            PyStr.contains ch (fold_left remove_char chars s) = false.
Proof.
  induction chars as [|c chars IH]; intros s H; simpl; [exact H|].
  apply IH. now apply replace_from_contains.
Qed.

Lemma fold_remove_gone (ch : ascii) (chars : list ascii) :
  In ch chars ->
  forall s, PyStr.contains ch (fold_left remove_char chars s) = false.
Proof.
  induction chars as [|c chars IH]; intros Hin s; simpl; [contradiction|].
  destruct (ascii_dec c ch) as [->|Hne].
  - apply fold_remove_keeps_absent. now apply replace_char_gone.
  - destruct Hin as [->|Hin]; [congruence|]. now apply IH.
Qed.

(** The parts of the sanitiser that hold for every name: no invalid
    character and no space is left, and the result ends in no period. *)
Lemma create_safe_filename_no_invalid (ch : ascii) (movie_name : string) :
  In ch invalid_chars ->
  PyStr.contains ch (create_safe_filename movie_name) = false.
Proof.
  intros Hin. unfold create_safe_filename.
  apply rstrip_contains.
  assert (Hu : PyStr.contains ch "_" = false).
  { simpl in Hin. now repeat (destruct Hin as [<-|Hin]; [reflexivity|]). }
  apply replace_from_contains; [exact Hu|].
  apply replace_from_contains; [exact Hu|].
  now apply (fold_remove_gone ch invalid_chars).
Qed.

Lemma create_safe_filename_no_space (movie_name : string) :
  PyStr.contains " " (create_safe_filename movie_name) = false.
Proof.
  unfold create_safe_filename.
  apply rstrip_contains.
  apply replace_from_contains; [reflexivity|].
  now apply replace_char_gone.
Qed.

Lemma create_safe_filename_no_trailing_period (movie_name : string) :
  PyStr.endswith "." (create_safe_filename movie_name) = false.
Proof. apply rstrip_not_endswith. Qed.

(** ** The sanitised name and the output location *)

(** C8 (the defect): one pass of [replace('__', '_')] halves a run of
    separators instead of collapsing it, so a name with three spaces in a row
    keeps two separators in a row. *)
Theorem create_safe_filename_keeps_double_separator :
  create_safe_filename "Fast   Furious" = "Fast__Furious"
  /\ has_double_separator (create_safe_filename "Fast   Furious") = true.
Proof. split; reflexivity. Qed.

Lemma safe_daily_not_absolute (movie_name : string) :
  PyStr.startswith "/" (create_safe_filename movie_name ++ "_daily.csv") = false.
Proof.
  pose proof (create_safe_filename_no_invalid "/" movie_name) as H.
  destruct (create_safe_filename movie_name) as [|c s]; [reflexivity|].
  simpl in *. apply orb_false_iff in H; [tauto|].
  unfold invalid_chars. simpl. tauto.
Qed.

Lemma os_path_join_inj (a b1 b2 : string) :
  PyStr.startswith "/" b1 = false ->
  PyStr.startswith "/" b2 = false ->
  os_path_join a b1 = os_path_join a b2 -> b1 = b2.
Proof.
  unfold os_path_join. intros -> ->.
  destruct (String.eqb a "" || PyStr.endswith "/" a); intros H.
  - now apply append_inj_l in H.
  - apply append_inj_l in H. now apply (append_inj_l "/").
Qed.

(** C9 (amended): two entries are written to the same file exactly when
    their names sanitise to the same string. *)
Theorem movie_filename_eq_iff (output_folder name1 name2 : string) :
  movie_filename output_folder name1 = movie_filename output_folder name2
  <-> create_safe_filename name1 = create_safe_filename name2.
Proof.
  unfold movie_filename. split.
  - intros H. apply os_path_join_inj in H; try apply safe_daily_not_absolute.
    now apply append_inj_r in H.
  - now intros ->.
Qed.

(** C9 (as stated) fails: "Face/Off" and "FaceOff" are distinct entries of a
    loaded catalog and share one output file. *)
Lemma output_locations_not_disjoint :
  ~ output_locations_disjoint "root/out"
      (load_and_validate_metadata
         [Demo.csv "Face/Off" 2010 None; Demo.csv "FaceOff" 2011 None]).
Proof.
  intros H.
  apply (H {| idx := 0; movie_name := "Face/Off"; release_year := Num 2010;
              daily_box_office_path := None |}
           {| idx := 1; movie_name := "FaceOff"; release_year := Num 2011;
              daily_box_office_path := None |}).
  - simpl. auto.
  - simpl. auto.
  - discriminate.
  - reflexivity.
Qed.

(** ** The fetcher *)

Lemma flat_map_if_singleton {A B} (p : A -> bool) (f : A -> B) (l : list A) :
  flat_map (fun x => if p x then [f x] else []) l = map f (filter p l).
Proof.
  induction l as [|x l IH]; simpl; [reflexivity|].
  destruct (p x); simpl; now rewrite IH.
Qed.

(** What [parse_table] computes on a table that has a header row. *)
Lemma parse_table_spec (movie_name : string) (table_headers : list string)
  (rows : list (list string)) :
  parse_table movie_name (table_headers :: rows)
  = Return (if existsb (well_formed table_headers) rows
            then Some (spec_record_set movie_name table_headers rows)
            else None).
Proof.
  unfold parse_table, spec_record_set.
  rewrite (flat_map_if_singleton (well_formed table_headers)).
  destruct (existsb (well_formed table_headers) rows) eqn:E.
  - apply existsb_exists in E as (r & Hin & Hr).
    assert (Hf : In r (filter (well_formed table_headers) rows))
      by (apply filter_In; auto).
    destruct (filter (well_formed table_headers) rows); [destruct Hf|].
    reflexivity.
  - assert (Hf : filter (well_formed table_headers) rows = []).
    { induction rows as [|r rows IH]; simpl in *; [reflexivity|].
      apply orb_false_iff in E as [-> E]. auto. }
    now rewrite Hf.
Qed.

Lemma spec_record_set_length (movie_name : string) (table_headers : list string)
  (rows : list (list string)) :
  List.length (spec_record_set movie_name table_headers rows)
  = List.length (filter (well_formed table_headers) rows).
Proof.
  unfold spec_record_set, column_str_replace.
  destruct (has_column _ _); now rewrite ?length_map.
Qed.

Lemma try_url_table (w : world) (movie_name url : string) (resp : response)
  (trs : list (list string)) :
  requests_get w url = Return resp ->
  status_error resp = None ->
  soup resp = HeadingTable trs ->
  try_url w movie_name url
  = Py.try_except_request (parse_table movie_name trs) (fun _ => Return None).
Proof.
  intros Hget Hstatus Hsoup. unfold try_url, raise_for_status.
  now rewrite Hget; simpl; rewrite Hstatus; simpl; rewrite Hsoup.
Qed.

Lemma parse_table_nonempty (movie_name : string) (trs : list (list string))
  (df : dataframe) :
  parse_table movie_name trs = Return (Some df) -> df <> [].
Proof.
  destruct trs as [|table_headers rows]; [discriminate|].
  rewrite parse_table_spec.
  destruct (existsb (well_formed table_headers) rows) eqn:E; [|discriminate].
  intros [= <-] Hnil.
  apply (f_equal (@List.length dict)) in Hnil.
  rewrite spec_record_set_length in Hnil.
  apply existsb_exists in E as (r & Hin & Hr).
  assert (Hf : In r (filter (well_formed table_headers) rows))
    by (apply filter_In; auto).
  destruct (filter (well_formed table_headers) rows); [destruct Hf | discriminate].
Qed.

Lemma try_url_nonempty (w : world) (movie_name url : string) (df : dataframe) :
  try_url w movie_name url = Return (Some df) -> df <> [].
Proof.
  unfold try_url.
  destruct (requests_get w url) as [resp|[msg|msg]]; simpl; try discriminate.
  unfold raise_for_status.
  destruct (status_error resp); simpl; [discriminate|].
  destruct (soup resp) as [| |trs]; try discriminate.
  destruct (parse_table movie_name trs) as [[d|]|[msg|msg]] eqn:E;
    simpl; try discriminate.
  intros [= <-]. now apply parse_table_nonempty in E.
Qed.

(** A single candidate never lets a request error through. *)
Lemma try_url_request_error (w : world) (movie_name url msg : string) :
  try_url w movie_name url <> Raise (RequestException msg).
Proof.
  unfold try_url.
  destruct (requests_get w url) as [resp|[m|m]]; simpl; try discriminate.
  unfold raise_for_status.
  destruct (status_error resp); simpl; [discriminate|].
  destruct (soup resp) as [| |trs]; try discriminate.
  destruct trs as [|table_headers rows]; [discriminate|].
  rewrite parse_table_spec. discriminate.
Qed.

Lemma for_urls_all_none (w : world) (movie_name : string) (urls : list string) :
  (forall url, In url urls -> try_url w movie_name url = Return None) ->
  for_urls w movie_name urls = Return (None, Some "No data found").
Proof.
  induction urls as [|url urls IH]; intros H; simpl; [reflexivity|].
  rewrite (H url) by (simpl; auto). simpl. apply IH. intros u Hu.
  apply H. simpl. auto.
Qed.

Lemma for_urls_success (w : world) (movie_name : string) (urls : list string)
  (df : dataframe) (err : option string) :
  for_urls w movie_name urls = Return (Some df, err) -> df <> [] /\ err = None.
Proof.
  induction urls as [|url urls IH]; simpl; [discriminate|].
  destruct (try_url w movie_name url) as [[d|]|e] eqn:E; simpl.
  - intros [= <- <-]. split; [now apply try_url_nonempty in E | reflexivity].
  - exact IH.
  - discriminate.
Qed.

Lemma raised_request_exception_swallowed (w : world) (movie_name url msg : string) :
  raised_at w movie_name url (RequestException msg) ->
  try_url w movie_name url = Return None.
Proof.
  unfold raised_at, try_url, raise_for_status.
  intros [->|(resp & -> & [H|(Hstatus & trs & Hsoup & Hparse)])]; simpl.
  - reflexivity.
  - now destruct (status_error resp).
  - rewrite Hstatus, Hsoup. simpl.
    destruct trs as [|table_headers rows]; [discriminate Hparse|].
    rewrite parse_table_spec in Hparse. discriminate Hparse.
Qed.

Lemma raised_other_exception_leaves (w : world) (movie_name url msg : string) :
  raised_at w movie_name url (OtherException msg) ->
  try_url w movie_name url = Raise (OtherException msg).
Proof.
  unfold raised_at, try_url, raise_for_status.
  intros [->|(resp & -> & [H|(Hstatus & trs & Hsoup & Hparse)])]; simpl.
  - reflexivity.
  - destruct (status_error resp); discriminate H.
  - rewrite Hstatus, Hsoup. simpl. now rewrite Hparse.
Qed.

Lemma for_urls_skip (w : world) (movie_name : string)
  (before rest : list string) :
  (forall url, In url before -> try_url w movie_name url = Return None) ->
  for_urls w movie_name (before ++ rest)%list = for_urls w movie_name rest.
Proof.
  induction before as [|url before IH]; intros H; simpl; [reflexivity|].
  rewrite (H url) by (simpl; auto). simpl. apply IH. intros u Hu.
  apply H. simpl. auto.
Qed.

Lemma for_urls_no_request_error (w : world) (movie_name : string)
  (urls : list string) (msg : string) :
  for_urls w movie_name urls <> Raise (RequestException msg).
Proof.
  induction urls as [|url urls IH]; simpl; [discriminate|].
  destruct (try_url w movie_name url) as [[d|]|e] eqn:E; simpl.
  - discriminate.
  - exact IH.
  - intros [= ->]. now apply try_url_request_error in E.
Qed.

(** C5 (amended): the fetcher always returns a value, never an exception.
    A request exception at a candidate - raised by the request or by an
    error status - is swallowed there: the candidate gives nothing and the
    loop goes on.  Every other exception - of the year conversion, or of
    the request or the reading of the table at a candidate that is reached -
    leaves the body and comes back as a failure with the exception's
    message; the body raises nothing but these.  Candidates that all give
    nothing end in "No data found". *)
Theorem scrape_daily_box_office_catches_exceptions (w : world)
  (movie_name : string) (release_year : pynum) :
  (exists df err,
      scrape_daily_box_office w movie_name release_year = Return (df, err))
  /\ (forall url msg,
        raised_at w movie_name url (RequestException msg) ->
        try_url w movie_name url = Return None)
  /\ (forall e,
        scrape_body w movie_name release_year = Raise e ->
        (exists msg, e = OtherException msg)
        /\ scrape_daily_box_office w movie_name release_year
           = Return (None, Some (str e)))
  /\ (forall e, py_int release_year = Raise e ->
                scrape_body w movie_name release_year = Raise e)
  /\ (forall year before url rest msg,
        release_year = Num year ->
        candidate_urls movie_name year = (before ++ url :: rest)%list ->
        (forall u, In u before -> try_url w movie_name u = Return None) ->
        raised_at w movie_name url (OtherException msg) ->
        scrape_daily_box_office w movie_name release_year
        = Return (None, Some msg))
  /\ (forall year,
        release_year = Num year ->
        (forall url, In url (candidate_urls movie_name year) ->
                     try_url w movie_name url = Return None) ->
        scrape_daily_box_office w movie_name release_year
        = Return (None, Some "No data found")).
Proof.
  unfold scrape_daily_box_office. split; [|split; [|split; [|split; [|split]]]].
  - destruct (scrape_body w movie_name release_year) as [[df err]|e]; simpl; eauto.
  - intros url msg. apply raised_request_exception_swallowed.
  - intros e He. rewrite He. split; [|reflexivity].
    destruct e as [msg|msg]; [|eauto]. exfalso.
    unfold scrape_body in He.
    destruct release_year as [year|]; cbn [py_int Py.bind] in He;
      [|discriminate He].
    now apply for_urls_no_request_error in He.
  - intros e He. unfold scrape_body. now rewrite He.
  - intros year before url rest msg -> Hurls Hbefore Hraised.
    unfold scrape_body. cbn [py_int Py.bind].
    rewrite Hurls, (for_urls_skip _ _ _ _ Hbefore). cbn [for_urls].
    now rewrite (raised_other_exception_leaves _ _ _ _ Hraised).
  - intros year -> H. unfold scrape_body. cbn [py_int Py.bind].
    now rewrite for_urls_all_none.
Qed.

(** C5 (amended), run: a NaN year and a table without rows come back with
    their messages; the 404 of an unknown title is swallowed at both
    candidates and ends in "No data found". *)
Lemma scrape_daily_box_office_catches_exceptions_witness :
  scrape_daily_box_office Demo.w_ok "Movie A" NaN
  = Return (None, Some "cannot convert float NaN to integer")
  /\ scrape_daily_box_office Demo.w_ok "Bare" (Num 2015)
     = Return (None, Some "'NoneType' object has no attribute 'find_all'")
  /\ scrape_daily_box_office Demo.w_ok "Movie C" (Num 2017)
     = Return (None, Some "No data found").
Proof.
  split; [|split].
  - exact (proj2 (proj1 (proj2 (proj2 (scrape_daily_box_office_catches_exceptions
                                          Demo.w_ok "Movie A" NaN)))
                        (OtherException "cannot convert float NaN to integer")
                        eq_refl)).
  - apply (proj1 (proj2 (proj2 (proj2 (proj2
             (scrape_daily_box_office_catches_exceptions
                Demo.w_ok "Bare" (Num 2015))))))
             2015 []
             "https://www.the-numbers.com/movie/Bare-(2015)#tab=box-office"
             ["https://www.the-numbers.com/movie/Bare#tab=box-office"]
             "'NoneType' object has no attribute 'find_all'" eq_refl eq_refl).
    { intros u []. }
    right. exists {| status_error := None; soup := HeadingTable [] |}.
    split; [reflexivity|]. right. split; [reflexivity|].
    exists []. split; reflexivity.
  - apply (proj2 (proj2 (proj2 (proj2 (proj2
             (scrape_daily_box_office_catches_exceptions
                Demo.w_ok "Movie C" (Num 2017))))))
             2017 eq_refl).
    intros url [<-|[<-|[]]];
      apply (proj1 (proj2 (scrape_daily_box_office_catches_exceptions
                             Demo.w_ok "Movie C" (Num 2017)))
               _ "404 Client Error");
      right; exists {| status_error := Some "404 Client Error"; soup := NoHeading |};
      (split; [reflexivity|]); left; reflexivity.
Defined.

(** C5 (as stated) fails: the error status of an unknown title raises
    [HTTPError] at the first candidate, and the fetch comes back with
    "No data found", not with the message of that exception. *)
Lemma request_exception_message_is_lost :
  ~ exceptions_carry_their_message Demo.w_ok "Movie C" 2017.
Proof.
  intros H.
  specialize (H "https://www.the-numbers.com/movie/Movie-C-(2017)#tab=box-office"
                ["https://www.the-numbers.com/movie/Movie-C#tab=box-office"]
                (RequestException "404 Client Error") eq_refl).
  assert (Hraised : raised_at Demo.w_ok "Movie C"
            "https://www.the-numbers.com/movie/Movie-C-(2017)#tab=box-office"
            (RequestException "404 Client Error")).
  { right. exists {| status_error := Some "404 Client Error"; soup := NoHeading |}.
    split; [reflexivity|]. left. reflexivity. }
  specialize (H Hraised). vm_compute in H. discriminate H.
Qed.

(** C6 (as stated) fails: a table whose only data row has 3 cells under a
    4-cell header makes the candidate fall through, and the fetch ends in
    "No data found" instead of a record set without that row. *)
Lemma malformed_rows_can_fail :
  ~ malformed_rows_never_fail Demo.w_ok "Empty"
      "https://www.the-numbers.com/movie/Empty-(2015)#tab=box-office"
  /\ scrape_daily_box_office Demo.w_ok "Empty" (Num 2015)
     = Return (None, Some "No data found").
Proof.
  split; [|reflexivity].
  intros H.
  specialize (H Demo.malformed_only
                ["Date"; "Rank"; "Gross"; "Theaters"] [["a"; "b"; "c"]]
                eq_refl eq_refl eq_refl).
  discriminate H.
Qed.

(** C6 (amended): when at least one data row has the header's cell count,
    the candidate succeeds with exactly the well-formed rows; the rows with
    another cell count are left out and cause no failure. *)
Theorem well_formed_rows_form_success (w : world) (movie_name url : string)
  (resp : response) (table_headers : list string) (rows : list (list string)) :
  requests_get w url = Return resp ->
  status_error resp = None ->
  soup resp = HeadingTable (table_headers :: rows) ->
  existsb (well_formed table_headers) rows = true ->
  try_url w movie_name url
  = Return (Some (spec_record_set movie_name table_headers rows))
  /\ List.length (spec_record_set movie_name table_headers rows)
     = List.length (filter (well_formed table_headers) rows)
  /\ forall urls,
       for_urls w movie_name (url :: urls)
       = Return (Some (spec_record_set movie_name table_headers rows), None).
Proof.
  intros Hget Hstatus Hsoup Hsome.
  assert (Htry : try_url w movie_name url
                 = Return (Some (spec_record_set movie_name table_headers rows))).
  { rewrite (try_url_table w movie_name url resp _ Hget Hstatus Hsoup).
    now rewrite parse_table_spec, Hsome. }
  split; [|split].
  - exact Htry.
  - apply spec_record_set_length.
  - intros urls. simpl. now rewrite Htry.
Qed.

Lemma well_formed_rows_form_success_witness :
  try_url Demo.w_ok "Movie A" Demo.url_movie_a
  = Return (Some [[("Date", "2015/01/01"); ("Rank", "1"); ("Gross", "1234567");
                   ("Theaters", "3,000"); ("Movie_Name", "Movie A")];
                  [("Date", "2015/01/02"); ("Rank", "2"); ("Gross", "999");
                   ("Theaters", "2,900"); ("Movie_Name", "Movie A")]]).
Proof.
  apply (well_formed_rows_form_success
           Demo.w_ok "Movie A" Demo.url_movie_a
           {| status_error := None; soup := Demo.table |}
           ["Date"; "Rank"; "Gross"; "Theaters"]
           [["2015/01/01"; "1"; "$1,234,567"; "3,000"];
            ["broken"; "row"; "3 cells"];
            ["2015/01/02"; "2"; "$999"; "2,900"]]); reflexivity.
Defined.

(** C10 (amended): a success of the fetcher holds at least one record; a
    candidate whose table has a header row but no well-formed data row is
    passed over for the next one, and with no candidate left the result is
    the failure "No data found". *)
Theorem success_has_a_record (w : world) (movie_name : string) :
  (forall release_year df err,
      scrape_daily_box_office w movie_name release_year = Return (Some df, err) ->
      df <> [] /\ err = None)
  /\ (forall url urls resp table_headers rows,
         requests_get w url = Return resp ->
         status_error resp = None ->
         soup resp = HeadingTable (table_headers :: rows) ->
         existsb (well_formed table_headers) rows = false ->
         for_urls w movie_name (url :: urls) = for_urls w movie_name urls)
  /\ for_urls w movie_name [] = Return (None, Some "No data found").
Proof.
  split; [|split; [|reflexivity]].
  - intros release_year df err H.
    unfold scrape_daily_box_office, scrape_body in H.
    destruct (py_int release_year) as [year|e]; cbn [Py.bind Py.try_except] in H;
      [|discriminate].
    destruct (for_urls w movie_name (candidate_urls movie_name year))
      as [[d e]|e] eqn:E; cbn [Py.try_except] in H; [|discriminate].
    injection H as -> ->. now apply for_urls_success in E.
  - intros url urls resp table_headers rows Hget Hstatus Hsoup Hnone. simpl.
    rewrite (try_url_table w movie_name url resp _ Hget Hstatus Hsoup).
    now rewrite parse_table_spec, Hnone.
Qed.

(** C10 (amended), run: both candidates of "Empty" carry a table with
    malformed rows only, and the fetch fails with "No data found". *)
Lemma success_has_a_record_witness :
  for_urls Demo.w_ok "Empty" (candidate_urls "Empty" 2015)
  = Return (None, Some "No data found").
Proof.
  destruct (success_has_a_record Demo.w_ok "Empty") as (_ & Hskip & Hend).
  change (candidate_urls "Empty" 2015)
    with ["https://www.the-numbers.com/movie/Empty-(2015)#tab=box-office";
          "https://www.the-numbers.com/movie/Empty#tab=box-office"].
  rewrite (Hskip _ _ Demo.malformed_only
                 ["Date"; "Rank"; "Gross"; "Theaters"] [["a"; "b"; "c"]])
    by reflexivity.
  rewrite (Hskip _ _ Demo.malformed_only
                 ["Date"; "Rank"; "Gross"; "Theaters"] [["a"; "b"; "c"]])
    by reflexivity.
  exact Hend.
Defined.

(** C10 (as stated) fails: the first page of "Bare" has the heading and a
    table without any row, so no well-formed data row results; the fetch
    does not go on to the second candidate, which is complete, and fails
    with the message of the [AttributeError] instead of "No data found". *)
Lemma rowless_table_does_not_fall_through :
  ~ rowless_tables_fall_through Demo.w_ok "Bare"
  /\ (exists df,
        try_url Demo.w_ok "Bare"
                "https://www.the-numbers.com/movie/Bare#tab=box-office"
        = Return (Some df))
  /\ scrape_daily_box_office Demo.w_ok "Bare" (Num 2015)
     = Return (None, Some "'NoneType' object has no attribute 'find_all'").
Proof.
  split; [|split; [eexists; reflexivity | reflexivity]].
  intros H.
  specialize (H "https://www.the-numbers.com/movie/Bare-(2015)#tab=box-office"
                ["https://www.the-numbers.com/movie/Bare#tab=box-office"]
                {| status_error := None; soup := HeadingTable [] |} []
                eq_refl eq_refl eq_refl eq_refl).
  vm_compute in H. discriminate H.
Qed.

(** ** Slices of a list *)

Section Slices.

Context {A : Type}.

Lemma in_firstn (n : nat) (l : list A) (x : A) : In x (firstn n l) -> In x l.
Proof.
  revert l. induction n as [|n IH]; intros [|a l]; simpl; try tauto.
  intros [->|H]; auto.
Qed.

Lemma in_skipn (n : nat) (l : list A) (x : A) : In x (skipn n l) -> In x l.
Proof.
  revert l. induction n as [|n IH]; intros [|a l]; simpl; try tauto.
  intros H. right. now apply IH.
Qed.

Lemma firstn_add (p q : nat) (l : list A) :
  firstn (p + q) l = (firstn p l ++ firstn q (skipn p l))%list.
Proof.
  revert l. induction p as [|p IH]; intros l; [reflexivity|].
  destruct l as [|a l]; simpl.
  - now rewrite firstn_nil.
  - now rewrite IH.
Qed.

(** Consecutive chunks of length [b] rebuild a prefix. *)
Lemma chunks_concat (b m : nat) (l : list A) :
  flat_map (fun k => firstn b (skipn (k * b) l)) (seq 0 m) = firstn (m * b) l.
Proof.
  induction m as [|m IH]; [reflexivity|].
  rewrite seq_S, flat_map_app, IH. simpl.
  rewrite app_nil_r, (Nat.add_comm b), firstn_add. reflexivity.
Qed.

Lemma NoDup_app_In (l1 l2 : list A) (a : A) :
  NoDup (l1 ++ l2) -> In a l1 -> In a l2 -> False.
Proof.
  induction l1 as [|x l1 IH]; simpl; intros Hnd H1 H2; [exact H1|].
  inversion Hnd as [|? ? Hx Hnd']; subst.
  destruct H1 as [->|H1]; [|now apply IH].
  apply Hx, in_or_app. now right.
Qed.

Lemma iloc_map {B} (f : A -> B) (l : list A) (a b : Z) :
  iloc (map f l) a b = map f (iloc l a b).
Proof. unfold iloc. now rewrite length_map, skipn_map, firstn_map. Qed.

(** On a non-negative start, the slice of a batch is a chunk. *)
Lemma iloc_chunk (l : list A) (a size : Z) :
  0 <= a -> 0 <= size ->
  iloc l a (Z.min (a + size) (Z.of_nat (List.length l)))
  = firstn (Z.to_nat size) (skipn (Z.to_nat a) l).
Proof.
  intros Ha Hsize. unfold iloc, slice_bound.
  set (n := Z.of_nat (List.length l)).
  assert (Hn : 0 <= n) by (unfold n; lia).
  destruct (a <? 0) eqn:E1; [apply Z.ltb_lt in E1; lia|].
  destruct (Z.min (a + size) n <? 0) eqn:E2; [apply Z.ltb_lt in E2; lia|].
  destruct (Z_lt_le_dec a n) as [Hlt|Hge].
  - rewrite (Z.min_l a n) by lia.
    rewrite <- (firstn_all2 (n := Z.to_nat (n - a)) (skipn (Z.to_nat a) l))
      by (rewrite length_skipn; unfold n; lia).
    rewrite (firstn_firstn _ (Z.to_nat size)), firstn_firstn. f_equal. lia.
  - rewrite (skipn_all2 (n := Z.to_nat a)) by (unfold n in Hge; lia).
    rewrite (skipn_all2 (n := Z.to_nat (Z.min a n))) by (unfold n in *; lia).
    now rewrite !firstn_nil.
Qed.

End Slices.

Lemma map_injective_in {A B} (f : A -> B) (l : list A) (x y : A) :
  NoDup (map f l) -> In x l -> In y l -> f x = f y -> x = y.
Proof.
  induction l as [|a l IH]; simpl; intros Hnd Hx Hy Hxy; [contradiction|].
  inversion Hnd as [|? ? Ha Hnd']; subst.
  destruct Hx as [->|Hx], Hy as [->|Hy]; auto.
  - exfalso. apply Ha. rewrite Hxy. now apply in_map.
  - exfalso. apply Ha. rewrite <- Hxy. now apply in_map.
Qed.

(** Rows of two slices that do not overlap carry different labels. *)
Lemma slices_disjoint {A B} (f : A -> B) (l : list A) (p b q b' : nat) (x y : A) :
  NoDup (map f l) -> (p + b <= q)%nat ->
  In x (firstn b (skipn p l)) -> In y (firstn b' (skipn q l)) -> f x <> f y.
Proof.
  intros Hnd Hle Hx Hy Hxy.
  rewrite <- (firstn_skipn q l), map_app in Hnd.
  apply (NoDup_app_In _ _ (f x) Hnd).
  - apply in_map. rewrite firstn_skipn_comm in Hx. apply in_skipn in Hx.
    replace (p + b)%nat with (Nat.min (p + b) q) in Hx by lia.
    rewrite <- firstn_firstn in Hx. now apply in_firstn in Hx.
  - rewrite Hxy. apply in_map. now apply in_firstn in Hy.
Qed.

(** ** Workers *)

Lemma process_movie_batch_returns (w : world) (md : movie_data) :
  exists r, process_movie_batch w md = Return r.
Proof.
  unfold process_movie_batch.
  match goal with |- exists r, Py.try_except ?m _ = _ => destruct m end;
    simpl; eauto.
Qed.

Lemma process_movie_batch_label (w : world) (md : movie_data) name label data path :
  process_movie_batch w md = Return (Success name label data path) ->
  label = md_idx md.
Proof.
  unfold process_movie_batch.
  destruct (scrape_daily_box_office w (md_movie_name md) (md_release_year md))
    as [[[movie_df|] error]|e]; simpl; try discriminate.
  destruct (to_csv w _); simpl; [discriminate|]. now intros [= _ <- _ _].
Qed.

Lemma process_movie_batch_path (w : world) (md : movie_data) name label data path :
  process_movie_batch w md = Return (Success name label data path) ->
  path = os_path_relpath w (movie_filename (md_output_folder md) (md_movie_name md))
                         (md_project_root md).
Proof.
  unfold process_movie_batch.
  destruct (scrape_daily_box_office w (md_movie_name md) (md_release_year md))
    as [[[movie_df|] error]|e]; simpl; try discriminate.
  destruct (to_csv w _); simpl; [discriminate|]. now intros [= _ _ _ <-].
Qed.

Lemma for_urls_failure_reason (w : world) (movie_name : string)
  (urls : list string) (err : option string) :
  for_urls w movie_name urls = Return (None, err) -> err = Some "No data found".
Proof.
  induction urls as [|url urls IH]; simpl; [now intros [= <-]|].
  destruct (try_url w movie_name url) as [[d|]|e]; simpl;
    [discriminate | exact IH | discriminate].
Qed.

Lemma scrape_returns (w : world) (movie_name : string) (release_year : pynum) :
  exists df err,
    scrape_daily_box_office w movie_name release_year = Return (df, err)
    /\ (df = None -> exists reason, err = Some reason).
Proof.
  unfold scrape_daily_box_office.
  destruct (scrape_body w movie_name release_year) as [[df err]|e] eqn:E; simpl.
  - exists df, err. split; [reflexivity|]. intros ->.
    unfold scrape_body in E.
    destruct (py_int release_year) as [year|e]; cbn [Py.bind] in E;
      [|discriminate].
    apply for_urls_failure_reason in E. eauto.
  - exists None, (Some (str e)). split; [reflexivity|]. eauto.
Qed.

Lemma process_movie_batch_cases (w : world) (md : movie_data) :
  exists df err,
    scrape_daily_box_office w (md_movie_name md) (md_release_year md)
    = Return (df, err)
    /\ process_movie_batch w md
       = Return
           match df, to_csv w (movie_filename (md_output_folder md)
                                              (md_movie_name md)) with
           | Some data, None =>
               Success (md_movie_name md) (md_idx md) data
                       (os_path_relpath w
                          (movie_filename (md_output_folder md) (md_movie_name md))
                          (md_project_root md))
           | Some _, Some e =>
               Failure (md_movie_name md) (md_idx md) (Some (str e))
           | None, _ => Failure (md_movie_name md) (md_idx md) err
           end
    /\ (df = None -> exists reason, err = Some reason).
Proof.
  destruct (scrape_returns w (md_movie_name md) (md_release_year md))
    as (df & err & Hscrape & Hreason).
  exists df, err. split; [exact Hscrape|]. split; [|exact Hreason].
  unfold process_movie_batch. rewrite Hscrape. cbn [Py.bind].
  destruct df as [data|]; [|reflexivity].
  now destruct (to_csv w _).
Qed.

Lemma success_mark_label (w : world) (md : movie_data) (m : Z * string) :
  In m (success_mark w md) -> fst m = md_idx md /\ succeeded w md = true.
Proof.
  unfold success_mark, succeeded.
  destruct (process_movie_batch w md) as [[name label data path|]|] eqn:E;
    simpl; try tauto.
  intros [<-|[]]. split; [|reflexivity]. simpl.
  now apply process_movie_batch_label in E.
Qed.

Lemma succeeded_mark (w : world) (md : movie_data) :
  succeeded w md = true -> exists path, success_mark w md = [(md_idx md, path)].
Proof.
  unfold success_mark, succeeded.
  destruct (process_movie_batch w md) as [[name label data path|]|] eqn:E;
    try discriminate.
  intros _. exists path. now rewrite (process_movie_batch_label _ _ _ _ _ _ E).
Qed.

Lemma failed_no_data (w : world) (md : movie_data) :
  succeeded w md = false -> success_data w md = [] /\ success_mark w md = [].
Proof.
  unfold success_data, success_mark, succeeded.
  now destruct (process_movie_batch w md) as [[name label data path|]|].
Qed.

(** ** Completion markers *)

Lemma mark_row_idx (marks : list (Z * string)) (r : row) :
  idx (mark_row marks r) = idx r.
Proof.
  revert r. induction marks as [|m marks IH]; intros r; [reflexivity|].
  simpl. rewrite IH. now destruct (idx r =? fst m).
Qed.

Lemma mark_row_unmarked (marks : list (Z * string)) (r : row) :
  (forall m, In m marks -> fst m <> idx r) -> mark_row marks r = r.
Proof.
  induction marks as [|m marks IH]; intros H; [reflexivity|].
  simpl. destruct (Z.eqb_spec (idx r) (fst m)) as [E|_].
  - exfalso. apply (H m); simpl; auto.
  - apply IH. intros m' Hm'. apply H. simpl. auto.
Qed.

Lemma mark_row_keeps_mark (marks : list (Z * string)) (r : row) :
  isna (daily_box_office_path r) = false ->
  isna (daily_box_office_path (mark_row marks r)) = false.
Proof.
  revert r. induction marks as [|m marks IH]; intros r H; [exact H|].
  simpl. apply IH. now destruct (idx r =? fst m).
Qed.

Lemma mark_row_marked (marks : list (Z * string)) (r : row) (m : Z * string) :
  In m marks -> fst m = idx r ->
  isna (daily_box_office_path (mark_row marks r)) = false.
Proof.
  revert r. induction marks as [|m' marks IH]; intros r Hin Hm; [destruct Hin|].
  simpl. destruct Hin as [->|Hin].
  - rewrite <- Hm, Z.eqb_refl. now apply mark_row_keeps_mark.
  - apply IH; [exact Hin|]. now destruct (idx r =? fst m').
Qed.

Lemma mark_row_same_path (marks : list (Z * string)) (r : row) (path : string) :
  (forall m, In m marks -> fst m = idx r -> snd m = path) ->
  (exists m, In m marks /\ fst m = idx r) ->
  mark_row marks r
  = {| idx := idx r;
       movie_name := movie_name r;
       release_year := release_year r;
       daily_box_office_path := Some path |}.
Proof.
  intros Hsame Hsome.
  assert (Hkeep : forall marks' r',
             (forall m, In m marks' -> fst m = idx r' -> snd m = path) ->
             daily_box_office_path r' = Some path ->
             mark_row marks' r' = r').
  { induction marks' as [|m marks' IH]; intros r' H Hpath; [reflexivity|].
    simpl. destruct (Z.eqb_spec (idx r') (fst m)) as [E|_].
    - rewrite (H m) by (simpl; auto).
      replace {| idx := idx r'; movie_name := movie_name r';
                 release_year := release_year r';
                 daily_box_office_path := Some path |} with r'
        by (destruct r'; simpl in Hpath; now rewrite Hpath).
      apply IH; [|exact Hpath]. intros m' Hm'. apply H. simpl. auto.
    - apply IH; [|exact Hpath]. intros m' Hm'. apply H. simpl. auto. }
  revert Hsome. induction marks as [|m marks IH]; intros (m0 & Hin & Hm0);
    [destruct Hin|].
  simpl. destruct (Z.eqb_spec (idx r) (fst m)) as [E|Hne].
  - rewrite (Hsame m) by (simpl; auto).
    apply Hkeep; [|reflexivity].
    intros m' Hm'. simpl. apply Hsame. simpl. auto.
  - apply IH.
    + intros m' Hm'. apply Hsame. simpl. auto.
    + destruct Hin as [->|Hin]; [congruence|]. eauto.
Qed.

Lemma mark_row_app (marks1 marks2 : list (Z * string)) (r : row) :
  mark_row (marks1 ++ marks2) r = mark_row marks2 (mark_row marks1 r).
Proof. unfold mark_row. now rewrite fold_left_app. Qed.

(** ** The loops *)

Lemma for_each_app {X} (body : X -> state -> py unit * state) (xs ys : list X)
  (st : state) :
  for_each body (xs ++ ys) st
  = match for_each body xs st with
    | (Return _, st') => for_each body ys st'
    | (Raise e, st') => (Raise e, st')
    end.
Proof.
  revert st. induction xs as [|x xs IH]; intros st; simpl; [reflexivity|].
  destruct (body x st) as [[[]|e] st']; [apply IH | reflexivity].
Qed.

(** Collecting the results of a batch never raises; it appends the record
    sets and the errors in the order given and assigns the markers. *)
Lemma for_each_collect (w : world) (mds : list movie_data) (st : state) :
  for_each (collect w) mds st
  = (Return tt,
     {| metadata_df :=
          map (mark_row (flat_map (success_mark w) mds)) (metadata_df st);
        error_log := (error_log st ++ flat_map (failure_entry w) mds)%list;
        all_movies_data :=
          (all_movies_data st ++ flat_map (success_data w) mds)%list;
        trace := trace st |}).
Proof.
  revert st. induction mds as [|md mds IH]; intros st.
  - destruct st. simpl. rewrite !app_nil_r, map_id. reflexivity.
  - cbn [for_each flat_map]. unfold collect at 1.
    unfold success_mark at 1, failure_entry at 1, success_data at 1.
    destruct (process_movie_batch_returns w md) as [r ->].
    destruct r as [name label data path|name label error]; rewrite IH; cbn.
    + unfold loc_set_path. rewrite map_map, <- !app_assoc. reflexivity.
    + rewrite <- !app_assoc. reflexivity.
Qed.

Section Run.

Variable w : world.
Variables metadata_path output_folder project_root : string.
Variables start_row batch_size max_workers : Z.
Variable df : list row.

Hypothesis labels_unique : NoDup (map idx df).
Hypothesis start_row_nonneg : 0 <= start_row.
Hypothesis batch_size_pos : 1 <= batch_size.
Hypothesis workers_pos : 1 <= max_workers.
Hypothesis pool_completes : completes_all w.

Local Abbreviation batch_rows := (batch_df start_row batch_size).
Local Abbreviation batch_entries :=
  (batch_data output_folder project_root start_row batch_size).
Local Abbreviation entry := (make_movie_data output_folder project_root).
Local Abbreviation done :=
  (completed w output_folder project_root start_row batch_size df).
Local Abbreviation after :=
  (state_after w output_folder project_root start_row batch_size df).
Local Abbreviation collected :=
  (state_collected w output_folder project_root start_row batch_size df).
Local Abbreviation batches := (Z.to_nat (total_batches start_row batch_size df)).

Lemma batch_rows_chunk (l : list row) (k : nat) :
  batch_rows l k
  = firstn (Z.to_nat batch_size)
           (skipn (Z.to_nat start_row + k * Z.to_nat batch_size) l).
Proof.
  unfold batch_df. rewrite iloc_chunk by nia.
  do 2 f_equal.
  rewrite Z2Nat.inj_add, Z2Nat.inj_mul, Nat2Z.id by nia. reflexivity.
Qed.

Lemma batch_rows_map (f : row -> row) (l : list row) (k : nat) :
  batch_rows (map f l) k = map f (batch_rows l k).
Proof. unfold batch_df. now rewrite length_map, iloc_map. Qed.

Lemma batch_rows_in (k : nat) (r : row) : In r (batch_rows df k) -> In r df.
Proof.
  rewrite batch_rows_chunk. intros H. now apply in_firstn, in_skipn in H.
Qed.

(** The batches cover the rows from the start offset on, in order. *)
Lemma batch_rows_concat :
  flat_map (batch_rows df) (seq 0 batches) = skipn (Z.to_nat start_row) df.
Proof.
  rewrite (flat_map_ext _ (fun k => firstn (Z.to_nat batch_size)
             (skipn (k * Z.to_nat batch_size) (skipn (Z.to_nat start_row) df)))).
  2:{ intros k. rewrite batch_rows_chunk, skipn_skipn. do 2 f_equal. lia. }
  rewrite chunks_concat. apply firstn_all2.
  rewrite length_skipn. unfold total_batches.
  set (n := List.length df).
  set (x := Z.of_nat n - start_row).
  destruct (Z_le_gt_dec x 0) as [Hx|Hx]; [unfold x in Hx; lia|].
  pose proof (Z_div_mod_eq_full (x + batch_size - 1) batch_size) as Hdiv.
  pose proof (Z.mod_pos_bound (x + batch_size - 1) batch_size ltac:(lia)) as Hmod.
  assert (Hq : 0 <= (x + batch_size - 1) / batch_size)
    by (apply Z.div_pos; lia).
  assert (Hge : x <= (x + batch_size - 1) / batch_size * batch_size) by nia.
  apply Nat2Z.inj_le. rewrite Nat2Z.inj_mul, !Z2Nat.id by lia.
  unfold x in Hge. lia.
Qed.

Lemma batch_entries_of_rows (l : list row) (k : nat) :
  batch_entries l k
  = map entry (filter (fun r => isna (daily_box_office_path r)) (batch_rows l k)).
Proof. reflexivity. Qed.

Lemma batch_entries_concat :
  flat_map (batch_entries df) (seq 0 batches)
  = map entry (filtered_entries df start_row).
Proof.
  unfold filtered_entries. rewrite <- batch_rows_concat.
  induction (seq 0 batches) as [|k ks IH]; [reflexivity|].
  simpl. rewrite filter_app, map_app, IH. reflexivity.
Qed.

(** A marker set while batches [0 .. k-1] ran belongs to an unprocessed row
    of one of those batches that succeeded. *)
Lemma marks_before (k : nat) (m : Z * string) :
  In m (flat_map (success_mark w) (flat_map done (seq 0 k))) ->
  exists j r,
    (j < k)%nat /\ In r (batch_rows df j)
    /\ isna (daily_box_office_path r) = true
    /\ fst m = idx r /\ succeeded w (entry r) = true.
Proof.
  intros H. apply in_flat_map in H as (md & Hmd & Hm).
  apply in_flat_map in Hmd as (j & Hj & Hmd).
  apply in_seq in Hj.
  apply (Permutation_in _ (pool_completes j _)) in Hmd.
  rewrite batch_entries_of_rows in Hmd.
  apply in_map_iff in Hmd as (r & <- & Hr).
  apply filter_In in Hr as [Hr Hna].
  apply success_mark_label in Hm as [Hm Hok].
  exists j, r. repeat split; auto; lia.
Qed.

(** The markers set by earlier batches leave the rows of batch [k] alone. *)
Lemma batch_entries_after (k : nat) :
  batch_entries (metadata_df (after k)) k = batch_entries df k.
Proof.
  cbn [state_after metadata_df].
  rewrite !batch_entries_of_rows, batch_rows_map. f_equal.
  rewrite <- (map_id (batch_rows df k)) at 2.
  f_equal. apply map_ext_in. intros r Hr.
  apply mark_row_unmarked. intros m Hm Heq.
  apply marks_before in Hm as (j & r' & Hj & Hr' & _ & Hm & _).
  rewrite batch_rows_chunk in Hr, Hr'.
  rewrite Hm in Heq. revert Heq.
  eapply (slices_disjoint idx df);
    [exact labels_unique | | exact Hr' | exact Hr].
  nia.
Qed.

Lemma done_nil (k : nat) : batch_entries df k = [] -> done k = [].
Proof.
  unfold completed. intros ->.
  apply Permutation_nil, Permutation_sym, pool_completes.
Qed.

Lemma flat_map_seq_S {B} (f : nat -> list B) (k : nat) :
  flat_map f (seq 0 (S k)) = (flat_map f (seq 0 k) ++ f k)%list.
Proof. rewrite seq_S, flat_map_app. simpl. now rewrite app_nil_r. Qed.

Lemma after_S_empty (k : nat) : batch_entries df k = [] -> after (S k) = after k.
Proof.
  intros H. unfold state_after.
  rewrite !flat_map_seq_S, (done_nil k H), !app_nil_r.
  unfold batch_events at 2. rewrite H, app_nil_r. reflexivity.
Qed.

Lemma after_S_saved (k : nat) :
  batch_entries df k <> [] ->
  after (S k) = log [SavedMetadata k; SavedErrorLog k] (collected k).
Proof.
  intros H. unfold log, state_collected, state_after.
  cbn [metadata_df error_log all_movies_data trace]. f_equal.
  rewrite (flat_map_seq_S (batch_events _ _ _ _ _)), <- app_assoc. f_equal.
  unfold batch_events. destruct (batch_entries df k); [congruence | reflexivity].
Qed.

(** One turn of the batch loop, from the state the earlier batches left. *)
Lemma run_batch_after (k : nat) :
  run_batch w metadata_path output_folder project_root start_row batch_size
            max_workers k (after k)
  = match batch_entries df k with
    | [] => (Return tt, after (S k))
    | _ =>
        match progress_to_csv w k metadata_path with
        | Some e => (Raise e, log [SavedMetadata k] (collected k))
        | None =>
            match progress_to_csv w k (error_log_path output_folder) with
            | Some e => (Raise e, log [SavedMetadata k; SavedErrorLog k] (collected k))
            | None => (Return tt, after (S k))
            end
        end
    end.
Proof.
  unfold run_batch. rewrite batch_entries_after.
  destruct (batch_entries df k) as [|md mds] eqn:E.
  - now rewrite after_S_empty.
  - destruct (Z.leb_spec max_workers 0) as [Hw|_]; [lia|].
    rewrite for_each_collect.
    assert (Hne : batch_entries df k <> []) by (rewrite E; discriminate).
    rewrite (after_S_saved k Hne).
    set (st := log (map (Submitted k) (md :: mds)) (after k)).
    set (finished := as_completed w k (md :: mds)).
    assert (Hc : log [SavedMetadata k]
                   {| metadata_df :=
                        map (mark_row (flat_map (success_mark w) finished))
                            (metadata_df st);
                      error_log :=
                        (error_log st ++ flat_map (failure_entry w) finished)%list;
                      all_movies_data :=
                        (all_movies_data st
                           ++ flat_map (success_data w) finished)%list;
                      trace := trace st |}
                 = log [SavedMetadata k] (collected k)).
    { unfold st, finished, log, state_collected.
      cbn [state_after metadata_df error_log all_movies_data trace].
      rewrite !flat_map_seq_S, !flat_map_app, map_map. unfold completed.
      rewrite E. f_equal.
      apply map_ext. intros r. now rewrite mark_row_app. }
    rewrite Hc.
    destruct (progress_to_csv w k metadata_path); [reflexivity|].
    assert (Hl : log [SavedErrorLog k] (log [SavedMetadata k] (collected k))
                 = log [SavedMetadata k; SavedErrorLog k] (collected k)).
    { unfold log. cbn [metadata_df error_log all_movies_data trace].
      now rewrite <- app_assoc. }
    rewrite Hl. reflexivity.
Qed.

(** While the progress files can be written, the loop goes from the state
    after [k] batches to the state after [k + m]. *)
Lemma run_batches_saved (m k : nat) :
  (forall j, (k <= j < k + m)%nat -> progress_saved w metadata_path output_folder j) ->
  for_each (run_batch w metadata_path output_folder project_root start_row
                      batch_size max_workers)
           (seq k m) (after k)
  = (Return tt, after (k + m)).
Proof.
  revert k. induction m as [|m IH]; intros k Hsaved.
  - now rewrite Nat.add_0_r.
  - cbn [seq for_each]. rewrite run_batch_after.
    destruct (Hsaved k ltac:(lia)) as [-> ->].
    replace (k + S m)%nat with (S k + m)%nat by lia.
    destruct (batch_entries df k); apply IH; intros j Hj; apply Hsaved; lia.
Qed.

Lemma initial_state_after : initial_state df = after 0.
Proof. unfold initial_state, state_after. simpl. now rewrite map_id. Qed.

(** The whole run when every progress file can be written. *)
Lemma parallel_scrape_movies_saved :
  (forall j, progress_saved w metadata_path output_folder j) ->
  parallel_scrape_movies w metadata_path output_folder project_root start_row
                         batch_size max_workers df
  = (Return (combined (all_movies_data (after batches))),
     match all_movies_data (after batches) with
     | [] => after batches
     | _ => log [SavedCombined] (after batches)
     end).
Proof.
  intros Hsaved. unfold parallel_scrape_movies.
  destruct (Z.eqb_spec batch_size 0) as [H0|_]; [lia|].
  rewrite initial_state_after, run_batches_saved by auto.
  cbn -[state_after total_batches Z.to_nat].
  destruct (all_movies_data (after batches)); [reflexivity|].
  match goal with |- match ?x with _ => _ end = _ => destruct x end; reflexivity.
Qed.

Lemma submitted_app (tr1 tr2 : list event) :
  submitted (tr1 ++ tr2) = (submitted tr1 ++ submitted tr2)%list.
Proof. apply flat_map_app. Qed.

Lemma submitted_in_app (k : nat) (tr1 tr2 : list event) :
  submitted_in k (tr1 ++ tr2) = (submitted_in k tr1 ++ submitted_in k tr2)%list.
Proof. apply flat_map_app. Qed.

Lemma submitted_map (k : nat) (mds : list movie_data) :
  submitted (map (Submitted k) mds) = mds.
Proof. induction mds as [|md mds IH]; simpl; [reflexivity | now rewrite IH]. Qed.

Lemma submitted_in_map (j k : nat) (mds : list movie_data) :
  submitted_in j (map (Submitted k) mds) = if Nat.eqb k j then mds else [].
Proof.
  induction mds as [|md mds IH]; simpl; [now destruct (Nat.eqb k j)|].
  rewrite IH. now destruct (Nat.eqb k j).
Qed.

Lemma submitted_batch_events (k : nat) :
  submitted (batch_events output_folder project_root start_row batch_size df k)
  = batch_entries df k.
Proof.
  unfold batch_events. destruct (batch_entries df k) as [|md mds]; [reflexivity|].
  rewrite submitted_app, submitted_map. simpl. now rewrite app_nil_r.
Qed.

Lemma submitted_in_batch_events (j k : nat) :
  submitted_in j (batch_events output_folder project_root start_row batch_size df k)
  = if Nat.eqb k j then batch_entries df k else [].
Proof.
  unfold batch_events. destruct (batch_entries df k) as [|md mds] eqn:E.
  - now destruct (Nat.eqb k j).
  - rewrite submitted_in_app, submitted_in_map. simpl. now rewrite app_nil_r.
Qed.

Lemma submitted_after (n : nat) :
  submitted (trace (after n)) = flat_map (batch_entries df) (seq 0 n).
Proof.
  cbn [state_after trace].
  induction (seq 0 n) as [|k ks IH]; [reflexivity|].
  simpl. now rewrite submitted_app, submitted_batch_events, IH.
Qed.

Lemma submitted_in_after (j n : nat) :
  submitted_in j (trace (after n))
  = if (j <? n)%nat then batch_entries df j else [].
Proof.
  cbn [state_after trace].
  induction n as [|n IH]; [reflexivity|].
  rewrite seq_S, flat_map_app, submitted_in_app, IH. simpl.
  rewrite app_nil_r, submitted_in_batch_events.
  destruct (Nat.eqb_spec n j) as [->|Hne].
  - rewrite Nat.ltb_irrefl. simpl.
    now destruct (Nat.ltb_spec j (S j)) as [_|H]; [|lia].
  - destruct (Nat.ltb_spec j n), (Nat.ltb_spec j (S n));
      try lia; now rewrite ?app_nil_r.
Qed.

Lemma trace_of_run (st : state) :
  submitted (trace (match all_movies_data st with
                    | [] => st
                    | _ => log [SavedCombined] st
                    end)) = submitted (trace st)
  /\ forall k,
       submitted_in k (trace (match all_movies_data st with
                              | [] => st
                              | _ => log [SavedCombined] st
                              end)) = submitted_in k (trace st).
Proof.
  destruct (all_movies_data st); [now split|].
  split; [|intros k]; simpl.
  - rewrite submitted_app. simpl. now rewrite app_nil_r.
  - rewrite submitted_in_app. simpl. now rewrite app_nil_r.
Qed.

Lemma NoDup_map_filter {A B} (label : A -> B) (keep : A -> bool) :
  forall rows : list A,
    NoDup (map label rows) -> NoDup (map label (filter keep rows)).
Proof.
  intros rows. induction rows as [|a l IH]; simpl; intros H; [constructor|].
  inversion H as [|? ? Ha Hl]; subst.
  destruct (keep a); simpl; [|now apply IH].
  constructor; [|now apply IH].
  intros Hin. apply Ha. apply in_map_iff in Hin as (x & Hx & Hin).
  apply filter_In in Hin as [Hin _]. rewrite <- Hx. now apply in_map.
Qed.

Lemma filtered_entries_NoDup :
  NoDup (map entry (filtered_entries df start_row)).
Proof.
  apply (NoDup_map_inv md_idx). rewrite map_map. simpl.
  unfold filtered_entries. apply NoDup_map_filter.
  pose proof labels_unique as H.
  rewrite <- (firstn_skipn (Z.to_nat start_row) df), map_app in H.
  now apply NoDup_app_remove_l in H.
Qed.

Lemma submitted_when_saved :
  (forall j, progress_saved w metadata_path output_folder j) ->
  submitted
    (trace (snd (parallel_scrape_movies w metadata_path output_folder
                   project_root start_row batch_size max_workers df)))
  = map entry (filtered_entries df start_row).
Proof.
  intros Hsaved. rewrite (parallel_scrape_movies_saved Hsaved). cbn [snd].
  rewrite (proj1 (trace_of_run _)), submitted_after. apply batch_entries_concat.
Qed.

(** C1 (amended): for a catalog with distinct labels, a start row of 0 or
    more, a batch size and a worker count of 1 or more, a pool that
    completes every task and writes of the progress files that all succeed,
    the run returns and the entries submitted to the workers are, in order,
    the entries at or after the start row without completion marker - each
    one once. *)
Theorem every_unprocessed_entry_submitted_once :
  (forall j, progress_saved w metadata_path output_folder j) ->
  exists combined_df st,
    parallel_scrape_movies w metadata_path output_folder project_root start_row
                           batch_size max_workers df
    = (Return combined_df, st)
    /\ submitted (trace st) = map entry (filtered_entries df start_row)
    /\ NoDup (submitted (trace st)).
Proof.
  intros Hsaved. pose proof (submitted_when_saved Hsaved) as Hsub.
  rewrite (parallel_scrape_movies_saved Hsaved) in *. cbn [snd] in Hsub.
  eexists _, _. split; [reflexivity|].
  split; [exact Hsub|]. rewrite Hsub. apply filtered_entries_NoDup.
Qed.

Lemma flat_map_flat_map {A B C} (f : B -> list C) (g : A -> list B) (l : list A) :
  flat_map f (flat_map g l) = flat_map (fun x => flat_map f (g x)) l.
Proof.
  induction l as [|a l IH]; simpl; [reflexivity|].
  now rewrite flat_map_app, IH.
Qed.


Lemma Permutation_flat_map_pointwise {A B} (f g : A -> list B) (l : list A) :
  (forall a, Permutation (f a) (g a)) ->
  Permutation (flat_map f l) (flat_map g l).
Proof.
  intros H. induction l as [|a l IH]; simpl; [constructor|].
  now apply Permutation_app.
Qed.

Lemma catalog_order_by_batches :
  catalog_order_data w output_folder project_root start_row df
  = flat_map (fun k => flat_map (success_data w) (batch_entries df k))
             (seq 0 batches).
Proof.
  unfold catalog_order_data.
  now rewrite <- batch_entries_concat, flat_map_flat_map.
Qed.

(** C2 (amended): for a catalog with distinct labels, a start row of 0 or
    more, a batch size and a worker count of 1 or more, a pool that
    completes every task and writes of the progress files that all succeed,
    the record sets are kept batch after batch, and within a batch in the
    order in which its workers finish; the result is a rearrangement of the
    catalog order and equals it when the workers of every batch finish in
    the order of submission. *)
Theorem combined_dataset_in_completion_order :
  (forall j, progress_saved w metadata_path output_folder j) ->
  let run :=
    parallel_scrape_movies w metadata_path output_folder project_root start_row
                           batch_size max_workers df in
  let frames :=
    completion_order_data w output_folder project_root start_row batch_size df
                          batches in
  fst run = Return (combined frames)
  /\ all_movies_data (snd run) = frames
  /\ Permutation frames
       (catalog_order_data w output_folder project_root start_row df)
  /\ ((forall k l, as_completed w k l = l) ->
      frames = catalog_order_data w output_folder project_root start_row df).
Proof.
  intros Hsaved run frames. unfold run.
  rewrite (parallel_scrape_movies_saved Hsaved). cbn [fst snd].
  assert (Hall : all_movies_data (after batches) = frames).
  { cbn [state_after all_movies_data]. apply flat_map_flat_map. }
  split; [now rewrite Hall|]. split.
  { rewrite <- Hall.
    destruct (all_movies_data (after batches)) eqn:E; [exact E|].
    cbn [log all_movies_data]. exact E. }
  rewrite catalog_order_by_batches. split.
  - apply Permutation_flat_map_pointwise. intros k.
    apply Permutation_flat_map, pool_completes.
  - intros Hid. unfold frames, completion_order_data, completed.
    apply flat_map_ext. intros k. now rewrite Hid.
Qed.


Lemma trace_after_batches (n : nat) (ev : event) :
  In ev (trace (after n)) -> exists j, event_batch ev = Some j /\ (j < n)%nat.
Proof.
  cbn [state_after trace]. intros H.
  apply in_flat_map in H as (k & Hk & Hev). apply in_seq in Hk.
  unfold batch_events in Hev.
  destruct (batch_entries df k) as [|md mds]; [destruct Hev|].
  apply in_app_or in Hev as [Hev|[<-|[<-|[]]]].
  - apply in_map_iff in Hev as (x & <- & _). exists k. split; [reflexivity | lia].
  - exists k. split; [reflexivity | lia].
  - exists k. split; [reflexivity | lia].
Qed.

Lemma no_later_submission (k j : nat) (tr : list event) :
  (forall ev, In ev tr -> exists i, event_batch ev = Some i /\ (i <= k)%nat) ->
  (k < j)%nat -> submitted_in j tr = [].
Proof.
  intros H Hlt. induction tr as [|ev tr IH]; [reflexivity|].
  simpl. rewrite IH by (intros ev' Hev'; apply H; simpl; auto).
  destruct (H ev ltac:(simpl; auto)) as (i & Hi & Hle).
  destruct ev as [i' md|i'|i'|]; try reflexivity.
  injection Hi as ->. now destruct (Nat.eqb_spec i j); [lia|].
Qed.

(** C4 (amended): a failed write of a progress file is not caught in
    [parallel_scrape_movies]: the exception ends the run in that batch.  No
    later batch is submitted or saved, no combined file is written, and the
    caller prints the error and raises it again. *)
Theorem failed_save_stops_the_run (k : nat) (e : exn) :
  (k < batches)%nat ->
  (forall j, (j < k)%nat -> progress_saved w metadata_path output_folder j) ->
  batch_entries df k <> [] ->
  progress_to_csv w k metadata_path = Some e
  \/ (progress_to_csv w k metadata_path = None
      /\ progress_to_csv w k (error_log_path output_folder) = Some e) ->
  let run :=
    parallel_scrape_movies w metadata_path output_folder project_root start_row
                           batch_size max_workers df in
  fst run = Raise e
  /\ (forall ev, In ev (trace (snd run)) ->
                 exists j, event_batch ev = Some j /\ (j <= k)%nat)
  /\ (forall j, (k < j)%nat -> submitted_in j (trace (snd run)) = [])
  /\ main_try_block w metadata_path output_folder project_root start_row
                    batch_size max_workers df
     = (Raise e, snd run, "Error occurred during scraping: " ++ str e).
Proof.
  intros Hk Hsaved Hne Hfail run.
  assert (Hrun : exists st,
             run = (Raise e, st)
             /\ forall ev, In ev (trace st) ->
                           exists j, event_batch ev = Some j /\ (j <= k)%nat).
  { unfold run, parallel_scrape_movies.
    destruct (Z.eqb_spec batch_size 0) as [H0|_]; [lia|].
    replace batches with (k + S (batches - S k))%nat by lia.
    rewrite seq_app, for_each_app, initial_state_after.
    rewrite run_batches_saved by (intros j Hj; apply Hsaved; lia).
    cbn [Nat.add seq for_each]. rewrite run_batch_after.
    assert (Hev : forall evs,
               (forall ev, In ev evs -> event_batch ev = Some k) ->
               forall ev, In ev (trace (log evs (collected k))) ->
                          exists j, event_batch ev = Some j /\ (j <= k)%nat).
    { intros evs Hevs ev Hin. cbn [log trace state_collected] in Hin.
      apply in_app_or in Hin as [Hin|Hin]; [apply in_app_or in Hin as [Hin|Hin]|].
      - apply trace_after_batches in Hin as (j & Hj & Hlt).
        exists j. split; [exact Hj | lia].
      - apply in_map_iff in Hin as (x & <- & _). exists k. split; [reflexivity | lia].
      - exists k. split; [now apply Hevs | lia]. }
    destruct (batch_entries df k) as [|md mds]; [congruence|].
    destruct Hfail as [->|[-> ->]]; eexists; (split; [reflexivity|]);
      apply Hev; intros ev Hin;
      repeat (destruct Hin as [<-|Hin]; [reflexivity|]); destruct Hin. }
  destruct Hrun as (st & Hrun & Hevents).
  unfold main_try_block. fold run. rewrite Hrun. cbn [fst snd].
  split; [reflexivity|]. split; [exact Hevents|]. split; [|reflexivity].
  intros j Hj. now apply (no_later_submission k).
Qed.

Lemma filter_map_cases {A} (f : A -> A) (p q : A -> bool) (l : list A) :
  (forall a, In a l ->
             if q a then f a = a /\ p a = true else p (f a) = false) ->
  filter p (map f l) = filter q l.
Proof.
  induction l as [|a l IH]; intros H; simpl; [reflexivity|].
  pose proof (H a ltac:(simpl; auto)) as Ha.
  rewrite IH by (intros x Hx; apply H; simpl; auto).
  destruct (q a).
  - destruct Ha as [-> ->]. reflexivity.
  - now rewrite Ha.
Qed.

Lemma filter_filter {A} (p q : A -> bool) (l : list A) :
  filter p (filter q l) = filter (fun a => q a && p a) l.
Proof.
  induction l as [|a l IH]; simpl; [reflexivity|].
  destruct (q a); simpl; [destruct (p a)|]; now rewrite IH.
Qed.

(** The catalog a saved run leaves: the rows of the first catalog with the
    markers of the entries that succeeded. *)
Lemma metadata_when_saved :
  (forall j, progress_saved w metadata_path output_folder j) ->
  metadata_df
    (snd (parallel_scrape_movies w metadata_path output_folder project_root
                                 start_row batch_size max_workers df))
  = map (mark_row (flat_map (success_mark w) (flat_map done (seq 0 batches)))) df.
Proof.
  intros Hsaved. rewrite (parallel_scrape_movies_saved Hsaved). cbn [snd].
  now destruct (all_movies_data (after batches)).
Qed.

(** After a saved run the entries still without marker are the unprocessed
    entries whose worker failed. *)
Lemma unprocessed_after_run :
  filtered_entries
    (map (mark_row (flat_map (success_mark w) (flat_map done (seq 0 batches)))) df)
    start_row
  = filter (fun r => negb (succeeded w (entry r))) (filtered_entries df start_row).
Proof.
  unfold filtered_entries. rewrite skipn_map, filter_filter.
  apply filter_map_cases. intros r Hr.
  destruct (isna (daily_box_office_path r)) eqn:Hna; cbn [andb].
  2:{ now apply mark_row_keeps_mark. }
  destruct (succeeded w (entry r)) eqn:Hok; cbn [negb].
  - rewrite <- batch_rows_concat in Hr.
    apply in_flat_map in Hr as (j & Hj & Hr).
    destruct (succeeded_mark _ _ Hok) as [path Hmark].
    apply (mark_row_marked _ _ (idx r, path)); [|reflexivity].
    apply in_flat_map. exists (entry r). split; [|rewrite Hmark; simpl; auto].
    apply in_flat_map. exists j. split; [exact Hj|].
    apply (Permutation_in _ (Permutation_sym (pool_completes j _))).
    rewrite batch_entries_of_rows. apply in_map, filter_In. auto.
  - assert (Hsame : mark_row (flat_map (success_mark w)
                                       (flat_map done (seq 0 batches))) r = r).
    { apply mark_row_unmarked. intros m Hm Heq.
      apply marks_before in Hm as (j & r' & _ & Hr' & _ & Hm & Hok').
      assert (r' = r).
      { apply (map_injective_in idx df); auto.
        - now apply batch_rows_in in Hr'.
        - now apply in_skipn in Hr.
        - congruence. }
      subst r'. congruence. }
    rewrite Hsame. auto.
Qed.

(** *** What a saved run leaves *)

Local Abbreviation marker :=
  (fun r : row =>
     os_path_relpath w (movie_filename output_folder (movie_name r)) project_root).
Local Abbreviation all_marks :=
  (flat_map (success_mark w) (flat_map done (seq 0 batches))).

Lemma success_mark_value (md : movie_data) (m : Z * string) :
  In m (success_mark w md) ->
  m = (md_idx md,
       os_path_relpath w (movie_filename (md_output_folder md) (md_movie_name md))
                       (md_project_root md))
  /\ succeeded w md = true.
Proof.
  unfold success_mark, succeeded.
  destruct (process_movie_batch w md) as [[name label data path|]|] eqn:E;
    simpl; try tauto.
  intros [<-|[]]. split; [|reflexivity].
  rewrite (process_movie_batch_label _ _ _ _ _ _ E).
  now rewrite (process_movie_batch_path _ _ _ _ _ _ E).
Qed.

Lemma marks_of_run (m : Z * string) :
  In m all_marks ->
  exists r,
    In r (skipn (Z.to_nat start_row) df)
    /\ isna (daily_box_office_path r) = true
    /\ succeeded w (entry r) = true
    /\ m = (idx r, marker r).
Proof.
  intros H. apply in_flat_map in H as (md & Hmd & Hm).
  apply in_flat_map in Hmd as (j & Hj & Hmd).
  apply (Permutation_in _ (pool_completes j _)) in Hmd.
  rewrite batch_entries_of_rows in Hmd.
  apply in_map_iff in Hmd as (r & <- & Hr).
  apply filter_In in Hr as [Hr Hna].
  apply success_mark_value in Hm as [-> Hok].
  exists r. repeat split; auto.
  rewrite <- batch_rows_concat. apply in_flat_map. eauto.
Qed.

Lemma mark_of_success (r : row) :
  In r (skipn (Z.to_nat start_row) df) ->
  isna (daily_box_office_path r) = true ->
  succeeded w (entry r) = true ->
  exists path, In (idx r, path) all_marks.
Proof.
  intros Hr Hna Hok. rewrite <- batch_rows_concat in Hr.
  apply in_flat_map in Hr as (j & Hj & Hr).
  destruct (succeeded_mark _ _ Hok) as [path Hmark].
  exists path. apply in_flat_map. exists (entry r).
  split; [|rewrite Hmark; simpl; auto].
  apply in_flat_map. exists j. split; [exact Hj|].
  apply (Permutation_in _ (Permutation_sym (pool_completes j _))).
  rewrite batch_entries_of_rows. apply in_map, filter_In. auto.
Qed.

Lemma marked_catalog :
  map (mark_row all_marks) df
  = catalog_after_run w output_folder project_root start_row df.
Proof.
  unfold catalog_after_run. set (marks := all_marks).
  rewrite <- (firstn_skipn (Z.to_nat start_row) df) at 1. rewrite map_app.
  subst marks. f_equal.
  - rewrite <- (map_id (firstn _ df)) at 2. apply map_ext_in. intros r Hr.
    apply mark_row_unmarked. intros m Hm Heq.
    apply marks_of_run in Hm as (r' & Hr' & _ & _ & ->). simpl in Heq.
    pose proof labels_unique as Hnd.
    rewrite <- (firstn_skipn (Z.to_nat start_row) df), map_app in Hnd.
    apply (NoDup_app_In _ _ (idx r) Hnd); [now apply in_map|].
    rewrite <- Heq. now apply in_map.
  - apply map_ext_in. intros r Hr. unfold fetched_row.
    assert (Hmine : forall m, In m all_marks -> fst m = idx r ->
                              isna (daily_box_office_path r) = true
                              /\ succeeded w (entry r) = true
                              /\ snd m = marker r).
    { intros m Hm Heq.
      apply marks_of_run in Hm as (r' & Hr' & Hna & Hok & ->). simpl in Heq.
      assert (r' = r).
      { apply (map_injective_in idx df); auto.
        - now apply in_skipn in Hr'.
        - now apply in_skipn in Hr. }
      subst r'. auto. }
    destruct (isna (daily_box_office_path r)
              && succeeded w (entry r)) eqn:E.
    + apply andb_true_iff in E as [Hna Hok].
      apply mark_row_same_path.
      * intros m Hm Heq. now apply Hmine.
      * destruct (mark_of_success r Hr Hna Hok) as [path Hin].
        exists (idx r, path). auto.
    + apply mark_row_unmarked. intros m Hm Heq.
      destruct (Hmine m Hm Heq) as (Hna & Hok & _).
      now rewrite Hna, Hok in E.
Qed.

Lemma state_when_saved :
  (forall j, progress_saved w metadata_path output_folder j) ->
  let st :=
    snd (parallel_scrape_movies w metadata_path output_folder project_root
                                start_row batch_size max_workers df) in
  error_log st = error_log (after batches)
  /\ all_movies_data st = all_movies_data (after batches)
  /\ trace st
     = (trace (after batches)
          ++ match all_movies_data (after batches) with
             | [] => []
             | _ => [SavedCombined]
             end)%list.
Proof.
  intros Hsaved st. unfold st.
  rewrite (parallel_scrape_movies_saved Hsaved). cbn [snd].
  destruct (all_movies_data (after batches)) eqn:E.
  - now rewrite E, app_nil_r.
  - cbn [log error_log all_movies_data trace]. now rewrite E.
Qed.

(** X15: For a catalog with distinct labels, a start row of 0 or more, a
    batch size and a worker count of 1 or more, a pool that completes every
    task and writes of the progress files that all succeed: the catalog the
    run leaves is the first catalog in which each unprocessed row at or
    after the start row whose worker succeeded has received, as marker, the
    path of its file relative to the project root.  Every other row - before
    the start row, already marked, or failed - is as it was; no row is
    added, dropped or moved. *)
Theorem catalog_after_saved_run :
  (forall j, progress_saved w metadata_path output_folder j) ->
  metadata_df
    (snd (parallel_scrape_movies w metadata_path output_folder project_root
                                 start_row batch_size max_workers df))
  = catalog_after_run w output_folder project_root start_row df.
Proof.
  intros Hsaved. rewrite (metadata_when_saved Hsaved). apply marked_catalog.
Qed.

Lemma done_permutation (n : nat) :
  Permutation (flat_map done (seq 0 n)) (flat_map (batch_entries df) (seq 0 n)).
Proof. apply Permutation_flat_map_pointwise. intros k. apply pool_completes. Qed.

Lemma failure_entry_row (md : movie_data) (e : error_entry) :
  In e (failure_entry w md) ->
  err_movie e = md_movie_name md
  /\ err_row e = md_idx md
  /\ succeeded w md = false
  /\ exists reason, err_error e = Some reason.
Proof.
  unfold failure_entry, succeeded.
  destruct (process_movie_batch_cases w md) as (df0 & err & Hscrape & Hproc & Hreason).
  rewrite Hproc.
  destruct df0 as [data|].
  - destruct (to_csv w _) as [x|]; simpl; [|tauto].
    intros [<-|[]]. simpl. eauto.
  - simpl. intros [<-|[]]. simpl.
    destruct (Hreason eq_refl) as [reason ->]. eauto.
Qed.

(** X18: For a catalog with distinct labels, a start row of 0 or more, a
    batch size and a worker count of 1 or more, a pool that completes every
    task and writes of the progress files that all succeed: the error log
    of the run has one row for each unprocessed entry at or after the start
    row whose worker failed, and no other row.  It is a rearrangement of the
    failures taken in catalog order, and every row carries the name and the
    label of its entry and a reason. *)
Theorem error_log_of_saved_run :
  (forall j, progress_saved w metadata_path output_folder j) ->
  let st :=
    snd (parallel_scrape_movies w metadata_path output_folder project_root
                                start_row batch_size max_workers df) in
  Permutation (error_log st)
              (flat_map (failure_entry w)
                        (map entry (filtered_entries df start_row)))
  /\ forall e, In e (error_log st) ->
               exists r reason,
                 In r (filtered_entries df start_row)
                 /\ succeeded w (entry r) = false
                 /\ err_movie e = movie_name r
                 /\ err_row e = idx r
                 /\ err_error e = Some reason.
Proof.
  intros Hsaved st.
  assert (Hperm : Permutation (error_log st)
                    (flat_map (failure_entry w)
                              (map entry (filtered_entries df start_row)))).
  { unfold st. rewrite (proj1 (state_when_saved Hsaved)).
    cbn [state_after error_log].
    rewrite <- batch_entries_concat.
    apply Permutation_flat_map, done_permutation. }
  split; [exact Hperm|].
  intros e He. apply (Permutation_in _ Hperm) in He.
  apply in_flat_map in He as (md & Hmd & He).
  apply in_map_iff in Hmd as (r & <- & Hr).
  apply failure_entry_row in He as (Hname & Hrow & Hfail & reason & Hreason).
  exists r, reason. auto.
Qed.

Lemma outcome_count (mds : list movie_data) :
  (List.length (flat_map (success_data w) mds)
   + List.length (flat_map (failure_entry w) mds) = List.length mds)%nat.
Proof.
  induction mds as [|md mds IH]; [reflexivity|].
  cbn [flat_map]. rewrite !length_app. cbn [List.length].
  assert (H : (List.length (success_data w md)
               + List.length (failure_entry w md) = 1)%nat).
  { unfold success_data, failure_entry.
    destruct (process_movie_batch_returns w md) as [[name label data path|] ->];
      reflexivity. }
  lia.
Qed.

(** X19: For a catalog with distinct labels, a start row of 0 or more, a
    batch size and a worker count of 1 or more, a pool that completes every
    task and writes of the progress files that all succeed: every entry is
    accounted for exactly once - the record sets collected and the rows of
    the error log together are as many as the unprocessed entries at or
    after the start row. *)
Theorem every_entry_accounted_for :
  (forall j, progress_saved w metadata_path output_folder j) ->
  let st :=
    snd (parallel_scrape_movies w metadata_path output_folder project_root
                                start_row batch_size max_workers df) in
  (List.length (all_movies_data st) + List.length (error_log st)
   = List.length (filtered_entries df start_row))%nat.
Proof.
  intros Hsaved st. unfold st.
  destruct (state_when_saved Hsaved) as (-> & -> & _).
  cbn [state_after error_log all_movies_data]. rewrite outcome_count.
  rewrite (Permutation_length (done_permutation batches)).
  now rewrite batch_entries_concat, length_map.
Qed.

Lemma submitted_in_when_saved (k : nat) :
  (forall j, progress_saved w metadata_path output_folder j) ->
  submitted_in k
    (trace (snd (parallel_scrape_movies w metadata_path output_folder
                   project_root start_row batch_size max_workers df)))
  = if (k <? batches)%nat then batch_entries df k else [].
Proof.
  intros Hsaved. rewrite (parallel_scrape_movies_saved Hsaved). cbn [snd].
  now rewrite (proj2 (trace_of_run _)), submitted_in_after.
Qed.

Lemma catalog_when_saved :
  (forall j, progress_saved w metadata_path output_folder j) ->
  metadata_df
    (snd (parallel_scrape_movies w metadata_path output_folder project_root
                                 start_row batch_size max_workers df))
  = catalog_after_run w output_folder project_root start_row df.
Proof.
  intros Hsaved. rewrite (metadata_when_saved Hsaved). apply marked_catalog.
Qed.

Lemma saved_event_after (n k : nat) (ev : event) :
  ev = SavedMetadata k \/ ev = SavedErrorLog k ->
  In ev (trace (after n)) <-> (k < n)%nat /\ batch_entries df k <> [].
Proof.
  intros Hev. cbn [state_after trace]. rewrite in_flat_map. split.
  - intros (j & Hj & Hin). apply in_seq in Hj. unfold batch_events in Hin.
    destruct (batch_entries df j) as [|md mds] eqn:E; [destruct Hin|].
    apply in_app_or in Hin as [Hin|Hin].
    + apply in_map_iff in Hin as (x & Hx & _).
      destruct Hev as [->| ->]; discriminate Hx.
    + assert (j = k).
      { destruct Hev as [->| ->]; destruct Hin as [H|[H|[]]];
          try discriminate H; now injection H. }
      subst j. split; [lia|]. rewrite E. discriminate.
  - intros [Hlt Hne]. exists k. split; [apply in_seq; lia|].
    unfold batch_events. destruct (batch_entries df k); [congruence|].
    apply in_or_app. right. destruct Hev as [->| ->]; simpl; auto.
Qed.

(** X20: In a saved run the two progress files are written after batch [k]
    exactly when that batch holds an unprocessed entry: a batch whose rows
    are all marked is passed over without a write. *)
Theorem progress_written_for_nonempty_batches (k : nat) :
  (forall j, progress_saved w metadata_path output_folder j) ->
  let tr :=
    trace (snd (parallel_scrape_movies w metadata_path output_folder
                  project_root start_row batch_size max_workers df)) in
  (In (SavedMetadata k) tr <-> (k < batches)%nat /\ batch_entries df k <> [])
  /\ (In (SavedErrorLog k) tr <-> (k < batches)%nat /\ batch_entries df k <> []).
Proof.
  intros Hsaved tr. unfold tr.
  destruct (state_when_saved Hsaved) as (_ & _ & ->).
  assert (Htail : forall ev,
             ev = SavedMetadata k \/ ev = SavedErrorLog k ->
             In ev (trace (after batches)
                      ++ match all_movies_data (after batches) with
                         | [] => []
                         | _ => [SavedCombined]
                         end)
             <-> In ev (trace (after batches))).
  { intros ev Hev. rewrite in_app_iff. split; [|auto].
    intros [H|H]; [exact H|].
    destruct (all_movies_data (after batches)); [destruct H|].
    destruct H as [<-|[]]. destruct Hev; discriminate. }
  split.
  - rewrite Htail by auto. apply saved_event_after. auto.
  - rewrite Htail by auto. apply saved_event_after. auto.
Qed.

(** X21: A saved run returns the concatenation of the record sets it collected,
    or [None] when it collected none, and it writes the combined file
    exactly in the first case.  A failure of that write changes nothing:
    the frame is returned all the same. *)
Theorem combined_file_written_iff_success :
  (forall j, progress_saved w metadata_path output_folder j) ->
  let run :=
    parallel_scrape_movies w metadata_path output_folder project_root start_row
                           batch_size max_workers df in
  fst run = Return (combined (all_movies_data (snd run)))
  /\ (In SavedCombined (trace (snd run)) <-> all_movies_data (snd run) <> []).
Proof.
  intros Hsaved run.
  destruct (state_when_saved Hsaved) as (_ & Hdata & Htrace).
  fold run in Hdata, Htrace. rewrite Htrace, Hdata.
  split.
  - unfold run. now rewrite (parallel_scrape_movies_saved Hsaved).
  - rewrite in_app_iff. split.
    + intros [H|H].
      * apply trace_after_batches in H as (j & Hj & _). discriminate Hj.
      * destruct (all_movies_data (after batches)); [destruct H | discriminate].
    + intros Hne. right.
      destruct (all_movies_data (after batches)); [congruence | simpl; auto].
Qed.

Lemma flat_map_nil_in {A B} (f : A -> list B) (l : list A) :
  (forall a, In a l -> f a = []) -> flat_map f l = [].
Proof.
  induction l as [|a l IH]; intros H; simpl; [reflexivity|].
  rewrite (H a), IH; simpl; auto.
  intros x Hx. apply H. simpl. auto.
Qed.

(** X22: For a catalog with distinct labels, a start row of 0 or more, a
    batch size and a worker count of 1 or more, a pool that completes every
    task and writes of the progress files that all succeed: when the worker
    of every unprocessed entry at or after the start row fails, the run
    returns [None], writes no combined file, leaves the catalog exactly as
    it was - no marker is set - and logs one error row for each of these
    entries. *)
Theorem run_of_failures_only :
  (forall j, progress_saved w metadata_path output_folder j) ->
  (forall r, In r (filtered_entries df start_row) ->
             succeeded w (entry r) = false) ->
  let run :=
    parallel_scrape_movies w metadata_path output_folder project_root start_row
                           batch_size max_workers df in
  fst run = Return None
  /\ metadata_df (snd run) = df
  /\ List.length (error_log (snd run))
     = List.length (filtered_entries df start_row)
  /\ ~ In SavedCombined (trace (snd run)).
Proof.
  intros Hsaved Hfail run.
  assert (Hnone : all_movies_data (after batches) = []).
  { cbn [state_after all_movies_data]. apply flat_map_nil_in. intros md Hmd.
    apply (Permutation_in _ (done_permutation batches)) in Hmd.
    rewrite batch_entries_concat in Hmd.
    apply in_map_iff in Hmd as (r & <- & Hr).
    now apply failed_no_data, Hfail. }
  destruct (state_when_saved Hsaved) as (Hlog & Hdata & Htrace).
  fold run in Hlog, Hdata, Htrace.
  split; [|split; [|split]].
  - unfold run. now rewrite (parallel_scrape_movies_saved Hsaved), Hnone.
  - unfold run. rewrite (catalog_when_saved Hsaved). unfold catalog_after_run.
    rewrite <- (firstn_skipn (Z.to_nat start_row) df) at 3. f_equal.
    rewrite <- (map_id (skipn _ df)) at 2. apply map_ext_in. intros r Hr.
    unfold fetched_row.
    destruct (isna (daily_box_office_path r)) eqn:Hna; [|reflexivity].
    rewrite Hfail; [reflexivity|]. apply filter_In. auto.
  - rewrite Hlog. cbn [state_after error_log].
    pose proof (outcome_count (flat_map done (seq 0 batches))) as Hcount.
    cbn [state_after all_movies_data] in Hnone. rewrite Hnone in Hcount.
    simpl in Hcount. rewrite Hcount.
    rewrite (Permutation_length (done_permutation batches)).
    now rewrite batch_entries_concat, length_map.
  - rewrite Htrace, Hnone, app_nil_r. intros H.
    apply trace_after_batches in H as (j & Hj & _). discriminate Hj.
Qed.

End Run.

(** ** The loaded catalog *)

Lemma read_csv_from_labels (label : Z) (rows : list csv_row) (r : row) :
  In r (read_csv_from label rows) -> label <= idx r.
Proof.
  revert label. induction rows as [|c rows IH]; intros label; simpl; [tauto|].
  intros [<-|H]; simpl; [lia|]. apply IH in H. lia.
Qed.

(** The rows [load_and_validate_metadata] returns have distinct labels. *)
Lemma load_labels_unique (rows : list csv_row) :
  NoDup (map idx (load_and_validate_metadata rows)).
Proof.
  unfold load_and_validate_metadata. apply NoDup_map_filter.
  generalize 0. induction rows as [|c rows IH]; intros label; simpl; constructor.
  - intros H. apply in_map_iff in H as (r & Hr & Hin).
    apply read_csv_from_labels in Hin. lia.
  - apply IH.
Qed.

(** ** Two runs *)

(** C7 (amended): a second run on the catalog a saved first run leaves
    submits exactly the entries whose fetch failed in the first run - their
    marker is still absent - and nothing when every entry succeeded. *)
Theorem second_run_refetches_failures (w w' : world)
  (metadata_path output_folder project_root : string)
  (start_row batch_size max_workers : Z) (df : list row) :
  NoDup (map idx df) ->
  0 <= start_row -> 1 <= batch_size -> 1 <= max_workers ->
  completes_all w -> completes_all w' ->
  (forall j, progress_saved w metadata_path output_folder j) ->
  (forall j, progress_saved w' metadata_path output_folder j) ->
  submitted
    (trace (snd (rerun w w' metadata_path output_folder project_root start_row
                       batch_size max_workers df)))
  = map (make_movie_data output_folder project_root)
        (filter (fun r => negb (succeeded w (make_movie_data output_folder
                                                            project_root r)))
                (filtered_entries df start_row))
  /\ ((forall r, In r (filtered_entries df start_row) ->
                 succeeded w (make_movie_data output_folder project_root r) = true) ->
      second_run_fetches_nothing w w' metadata_path output_folder project_root
                                 start_row batch_size max_workers df).
Proof.
  intros Hlabels Hstart Hsize Hworkers Hpool Hpool' Hsaved Hsaved'.
  assert (Hsub : submitted
            (trace (snd (rerun w w' metadata_path output_folder project_root
                               start_row batch_size max_workers df)))
          = map (make_movie_data output_folder project_root)
                (filter (fun r => negb (succeeded w (make_movie_data output_folder
                                                                    project_root r)))
                        (filtered_entries df start_row))).
  { unfold rerun.
    rewrite (metadata_when_saved w metadata_path output_folder project_root
               start_row batch_size max_workers df) by assumption.
    rewrite submitted_when_saved; try assumption.
    - f_equal. now apply unprocessed_after_run.
    - rewrite map_map. erewrite map_ext; [exact Hlabels|].
      intros r. apply mark_row_idx. }
  split; [exact Hsub|].
  intros Hall. unfold second_run_fetches_nothing. rewrite Hsub.
  rewrite (filter_ext_in _ (fun _ => false)).
  - clear. induction (filtered_entries df start_row); simpl; auto.
  - intros r Hr. now rewrite (Hall r Hr).
Qed.

(** ** The properties on the test data *)

Lemma in_order_completes (progress : nat -> string -> option exn) :
  completes_all (Demo.world_of Demo.in_order progress).
Proof. intros k l. apply Permutation_refl. Qed.

Lemma reversed_completes (progress : nat -> string -> option exn) :
  completes_all (Demo.world_of Demo.reversed progress).
Proof. intros k l. apply Permutation_sym, Permutation_rev. Qed.

Lemma disk_ok_saved (order : nat -> list movie_data -> list movie_data) (j : nat) :
  progress_saved (Demo.world_of order Demo.disk_ok) "meta.csv" "root/out" j.
Proof. split; reflexivity. Qed.

Lemma every_unprocessed_entry_submitted_once_witness :
  exists combined_df st,
    Demo.run Demo.w_ok Demo.catalog 0 2 5 = (Return combined_df, st)
    /\ submitted (trace st)
       = map (make_movie_data "root/out" "root") (filtered_entries Demo.catalog 0)
    /\ NoDup (submitted (trace st)).
Proof.
  apply (every_unprocessed_entry_submitted_once
           Demo.w_ok "meta.csv" "root/out" "root" 0 2 5 Demo.catalog).
  - apply load_labels_unique.
  - lia.
  - lia.
  - lia.
  - apply in_order_completes.
  - apply disk_ok_saved.
Defined.

(** C1 (as stated) fails at a negative start row, which the script accepts:
    with start row -2 and batches of one, the slice of the first batch is
    counted from the end and holds "Movie C", whose fetch fails; the batch
    that starts at row 0 holds it again, and it is submitted twice.  It
    fails as well when a write of the progress files fails: with a full disk
    the run ends after the first batch of two, and "Movie C" of the second
    batch is never submitted. *)
Lemma negative_start_row_submits_twice :
  ~ submits_filtered_entries_once Demo.w_ok "meta.csv" "root/out" "root"
      (-2) 1 5 Demo.unknown
  /\ ~ submits_filtered_entries_once Demo.w_disk_full "meta.csv" "root/out"
        "root" 0 2 5 Demo.catalog.
Proof.
  split.
  - intros [_ Hnd]. vm_compute in Hnd.
    inversion Hnd as [|md mds Hnotin _]. apply Hnotin. left. reflexivity.
  - intros [Hperm _]. apply Permutation_length in Hperm.
    vm_compute in Hperm. discriminate Hperm.
Qed.

(** C2 (as stated) fails: with two entries in a batch finishing in reverse
    order, the record set of "Movie B" comes before that of "Movie A". *)
Lemma combined_dataset_not_in_catalog_order :
  ~ aggregates_in_catalog_order Demo.w_reversed "meta.csv" "root/out" "root"
      0 2 5 Demo.catalog.
Proof.
  unfold aggregates_in_catalog_order. vm_compute. discriminate.
Qed.

Lemma combined_dataset_in_completion_order_witness :
  all_movies_data (snd (Demo.run Demo.w_reversed Demo.catalog 0 2 5))
  = completion_order_data Demo.w_reversed "root/out" "root" 0 2 Demo.catalog
      (Z.to_nat (total_batches 0 2 Demo.catalog))
  /\ Permutation
       (completion_order_data Demo.w_reversed "root/out" "root" 0 2 Demo.catalog
          (Z.to_nat (total_batches 0 2 Demo.catalog)))
       (catalog_order_data Demo.w_reversed "root/out" "root" 0 Demo.catalog).
Proof.
  destruct (combined_dataset_in_completion_order
              Demo.w_reversed "meta.csv" "root/out" "root" 0 2 5 Demo.catalog)
    as (_ & Hall & Hperm & _).
  - apply load_labels_unique.
  - lia.
  - lia.
  - lia.
  - apply reversed_completes.
  - apply disk_ok_saved.
  - split; [exact Hall | exact Hperm].
Defined.



(** C4 (as stated) fails: with a full disk the write after the first batch
    raises, and the run ends there. *)
Lemma failed_save_is_not_survived :
  ~ survives_failed_save Demo.w_disk_full "meta.csv" "root/out" "root"
      0 2 5 Demo.catalog.
Proof.
  intros H.
  destruct (H 0%nat (OtherException "[Errno 28] No space left on device"))
    as [[combined_df Hrun] _].
  - vm_compute. discriminate.
  - reflexivity.
  - vm_compute in Hrun. discriminate Hrun.
Qed.

Lemma failed_save_stops_the_run_witness :
  fst (Demo.run Demo.w_disk_full Demo.catalog 0 2 5)
  = Raise (OtherException "[Errno 28] No space left on device")
  /\ submitted_in 1 (trace (snd (Demo.run Demo.w_disk_full Demo.catalog 0 2 5))) = [].
Proof.
  destruct (failed_save_stops_the_run
              Demo.w_disk_full "meta.csv" "root/out" "root" 0 2 5 Demo.catalog
              ltac:(apply load_labels_unique) ltac:(lia) ltac:(lia) ltac:(lia)
              (in_order_completes Demo.disk_full)
              0%nat (OtherException "[Errno 28] No space left on device"))
    as (Hraise & _ & Hlater & _).
  - vm_compute. lia.
  - intros j Hj. lia.
  - vm_compute. discriminate.
  - left. reflexivity.
  - split; [exact Hraise | apply Hlater; lia].
Defined.

(** C7 (as stated) fails: "Movie C" is not found in the first run, keeps no
    marker, and is fetched again by the second run. *)
Lemma second_run_fetches_again :
  ~ second_run_fetches_nothing Demo.w_ok Demo.w_ok "meta.csv" "root/out" "root"
      0 2 5 Demo.catalog.
Proof.
  unfold second_run_fetches_nothing. vm_compute. discriminate.
Qed.

Lemma second_run_refetches_failures_witness :
  submitted
    (trace (snd (rerun Demo.w_ok Demo.w_ok "meta.csv" "root/out" "root" 0 2 5
                       Demo.catalog)))
  = map (make_movie_data "root/out" "root")
        (filter (fun r => negb (succeeded Demo.w_ok
                                          (make_movie_data "root/out" "root" r)))
                (filtered_entries Demo.catalog 0)).
Proof.
  apply (second_run_refetches_failures
           Demo.w_ok Demo.w_ok "meta.csv" "root/out" "root" 0 2 5 Demo.catalog).
  - apply load_labels_unique.
  - lia.
  - lia.
  - lia.
  - apply in_order_completes.
  - apply in_order_completes.
  - apply disk_ok_saved.
  - apply disk_ok_saved.
Defined.

(** * More of the program *)

(** ** More on the sanitised name *)

(** X1: The name [create_safe_filename] returns holds none of the characters of
    [invalid_chars] and no space, and does not end in a period. *)
Theorem create_safe_filename_is_safe (movie_name : string) :
  (forall ch, In ch invalid_chars ->
              PyStr.contains ch (create_safe_filename movie_name) = false)
  /\ PyStr.contains " " (create_safe_filename movie_name) = false
  /\ PyStr.endswith "." (create_safe_filename movie_name) = false.
Proof.
  split; [|split].
  - intros ch Hch. now apply create_safe_filename_no_invalid.
  - apply create_safe_filename_no_space.
  - apply create_safe_filename_no_trailing_period.
Qed.

Lemma replace_char_absent (ch : ascii) (new s : string) :
  PyStr.contains ch s = false -> PyStr.replace (String ch "") new s = s.
Proof.
  unfold PyStr.replace. induction s as [|c s IH]; simpl; [reflexivity|].
  intros H. apply orb_false_iff in H as [Hc Hs].
  destruct (ascii_dec ch c) as [->|_].
  - now rewrite Ascii.eqb_refl in Hc.
  - now rewrite IH.
Qed.

Lemma fold_remove_absent (chars : list ascii) (s : string) :
  (forall ch, In ch chars -> PyStr.contains ch s = false) ->
  fold_left remove_char chars s = s.
Proof.
  induction chars as [|c chars IH]; intros H; simpl; [reflexivity|].
  unfold remove_char at 2. rewrite replace_char_absent by (apply H; simpl; auto).
  apply IH. intros ch Hch. apply H. simpl. auto.
Qed.

Lemma replace_double_absent (s : string) :
  has_double_separator s = false -> PyStr.replace "__" "_" s = s.
Proof.
  unfold PyStr.replace. induction s as [|c s IH]; [reflexivity|].
  cbn [has_double_separator]. intros H.
  apply orb_false_iff in H as [Hc Hs].
  cbn [PyStr.replace_from prefix].
  assert (Hp : (if ascii_dec "_" c then prefix "_" s else false) = false).
  { destruct (ascii_dec "_" c) as [<-|_]; [|reflexivity].
    simpl in Hc. destruct s as [|b s]; [reflexivity|].
    simpl in Hc. cbn [prefix].
    destruct (ascii_dec "_" b) as [<-|_]; [discriminate Hc | reflexivity]. }
  rewrite Hp. now rewrite IH.
Qed.

Lemma rstrip_absent (d : ascii) (s : string) :
  PyStr.endswith d s = false -> PyStr.rstrip d s = s.
Proof.
  induction s as [|c s IH]; [reflexivity|].
  destruct s as [|b s].
  - simpl. now intros ->.
  - intros H. change (PyStr.endswith d (String b s) = false) in H.
    change (PyStr.rstrip d (String c (String b s)))
      with (match PyStr.rstrip d (String b s) with
            | EmptyString =>
                if Ascii.eqb c d then EmptyString else String c EmptyString
            | r => String c r
            end).
    rewrite (IH H). reflexivity.
Qed.

(** X2: A name that is already clean - no invalid character, no space, no two
    underscores in a row, no period at the end - is returned as it is. *)
Theorem create_safe_filename_clean (movie_name : string) :
  (forall ch, In ch invalid_chars -> PyStr.contains ch movie_name = false) ->
  PyStr.contains " " movie_name = false ->
  has_double_separator movie_name = false ->
  PyStr.endswith "." movie_name = false ->
  create_safe_filename movie_name = movie_name.
Proof.
  intros Hinvalid Hspace Hdouble Hperiod. unfold create_safe_filename.
  rewrite fold_remove_absent by exact Hinvalid.
  rewrite replace_char_absent by exact Hspace.
  rewrite replace_double_absent by exact Hdouble.
  now apply rstrip_absent.
Qed.

Lemma create_safe_filename_clean_witness :
  create_safe_filename "Mad_Max-Fury.Road" = "Mad_Max-Fury.Road".
Proof.
  apply create_safe_filename_clean.
  - intros ch Hch. simpl in Hch.
    repeat (destruct Hch as [<-|Hch]; [reflexivity|]). destruct Hch.
  - reflexivity.
  - reflexivity.
  - reflexivity.
Defined.

(** X3: The file of an entry lies directly in the output folder: its name is
    the folder, a separator unless the folder is empty or ends in one, and a
    base name [<safe name>_daily.csv] without slash or backslash. *)
Theorem movie_filename_in_folder (output_folder movie_name : string) :
  let base := create_safe_filename movie_name ++ "_daily.csv" in
  movie_filename output_folder movie_name
  = (if String.eqb output_folder "" || PyStr.endswith "/" output_folder
     then output_folder ++ base
     else output_folder ++ "/" ++ base)
  /\ PyStr.contains "/" base = false
  /\ PyStr.contains "\" base = false.
Proof.
  intros base. unfold base. split; [|split].
  - unfold movie_filename, os_path_join.
    now rewrite safe_daily_not_absolute.
  - rewrite contains_append, create_safe_filename_no_invalid; [reflexivity|].
    unfold invalid_chars. simpl. tauto.
  - rewrite contains_append, create_safe_filename_no_invalid; [reflexivity|].
    unfold invalid_chars. simpl. tauto.
Qed.

(** ** The candidate URLs *)

(** X4: The two candidates differ in the year only, and the name they share
    holds no space, colon or ampersand. *)
Theorem candidate_urls_name (movie_name : string) (year : Z) :
  candidate_urls movie_name year
  = ["https://www.the-numbers.com/movie/" ++ url_name movie_name ++ "-("
       ++ PyStr.of_int year ++ ")#tab=box-office";
     "https://www.the-numbers.com/movie/" ++ url_name movie_name
       ++ "#tab=box-office"]
  /\ PyStr.contains " " (url_name movie_name) = false
  /\ PyStr.contains ":" (url_name movie_name) = false
  /\ PyStr.contains "&" (url_name movie_name) = false.
Proof.
  split; [reflexivity|]. unfold url_name. split; [|split].
  - now apply replace_char_gone.
  - apply replace_from_contains; [reflexivity|].
    apply replace_from_contains; [reflexivity|].
    now apply replace_char_gone.
  - apply replace_from_contains; [reflexivity|].
    now apply replace_char_gone.
Qed.

(** ** More on the fetcher *)

Lemma try_url_success_inv (w : world) (movie_name url : string) (df : dataframe) :
  try_url w movie_name url = Return (Some df) ->
  exists resp table_headers rows,
    requests_get w url = Return resp
    /\ status_error resp = None
    /\ soup resp = HeadingTable (table_headers :: rows)
    /\ existsb (well_formed table_headers) rows = true
    /\ df = spec_record_set movie_name table_headers rows.
Proof.
  unfold try_url.
  destruct (requests_get w url) as [resp|[msg|msg]] eqn:Hget; simpl;
    try discriminate.
  unfold raise_for_status.
  destruct (status_error resp) eqn:Hstatus; simpl; [discriminate|].
  destruct (soup resp) as [| |trs] eqn:Hsoup; try discriminate.
  destruct trs as [|table_headers rows]; [discriminate|].
  rewrite parse_table_spec.
  destruct (existsb (well_formed table_headers) rows) eqn:E; [|discriminate].
  simpl. intros [= <-]. exists resp, table_headers, rows. auto.
Qed.

Lemma for_urls_success_inv (w : world) (movie_name : string) (urls : list string)
  (df : dataframe) (err : option string) :
  for_urls w movie_name urls = Return (Some df, err) ->
  exists url, In url urls /\ try_url w movie_name url = Return (Some df).
Proof.
  induction urls as [|url urls IH]; simpl; [discriminate|].
  destruct (try_url w movie_name url) as [[d|]|e] eqn:E; simpl.
  - intros [= <- _]. exists url. auto.
  - intros H. destruct (IH H) as (u & Hu & Htry). exists u. auto.
  - discriminate.
Qed.

Lemma scrape_success_inv (w : world) (movie_name : string) (release_year : pynum)
  (df : dataframe) (err : option string) :
  scrape_daily_box_office w movie_name release_year = Return (Some df, err) ->
  exists year url,
    release_year = Num year
    /\ In url (candidate_urls movie_name year)
    /\ try_url w movie_name url = Return (Some df).
Proof.
  unfold scrape_daily_box_office, scrape_body.
  destruct release_year as [year|]; cbn [py_int Py.bind Py.try_except];
    [|discriminate].
  destruct (for_urls w movie_name (candidate_urls movie_name year))
    as [[d e]|e] eqn:E; cbn [Py.try_except]; [|discriminate].
  intros [= -> ->]. apply for_urls_success_inv in E as (url & Hurl & Htry).
  exists year, url. auto.
Qed.

(** X5: A success is never made up: its record set is the record set of the
    table found on one of the two candidate pages, fetched without error,
    and that table has a well-formed data row. *)
Theorem success_comes_from_a_candidate (w : world) (movie_name : string)
  (release_year : pynum) (df : dataframe) (err : option string) :
  scrape_daily_box_office w movie_name release_year = Return (Some df, err) ->
  exists year url resp table_headers rows,
    release_year = Num year
    /\ In url (candidate_urls movie_name year)
    /\ requests_get w url = Return resp
    /\ status_error resp = None
    /\ soup resp = HeadingTable (table_headers :: rows)
    /\ existsb (well_formed table_headers) rows = true
    /\ df = spec_record_set movie_name table_headers rows.
Proof.
  intros H. apply scrape_success_inv in H as (year & url & Hyear & Hurl & Htry).
  apply try_url_success_inv in Htry
    as (resp & table_headers & rows & Hget & Hstatus & Hsoup & Hrows & Hdf).
  exists year, url, resp, table_headers, rows. auto 10.
Qed.

Lemma success_comes_from_a_candidate_witness :
  exists year url resp table_headers rows,
    Num 2015 = Num year
    /\ In url (candidate_urls "Movie A" year)
    /\ requests_get Demo.w_ok url = Return resp
    /\ status_error resp = None
    /\ soup resp = HeadingTable (table_headers :: rows)
    /\ existsb (well_formed table_headers) rows = true
    /\ [[("Date", "2015/01/01"); ("Rank", "1"); ("Gross", "1234567");
         ("Theaters", "3,000"); ("Movie_Name", "Movie A")];
        [("Date", "2015/01/02"); ("Rank", "2"); ("Gross", "999");
         ("Theaters", "2,900"); ("Movie_Name", "Movie A")]]
       = spec_record_set "Movie A" table_headers rows.
Proof.
  apply (success_comes_from_a_candidate Demo.w_ok "Movie A" (Num 2015) _ None).
  reflexivity.
Defined.

(** The soft failures of a candidate: a transport error, an error status, a
    page without the heading, a heading without table. *)
Lemma try_url_soft_failure (w : world) (movie_name url : string) :
  (exists msg, requests_get w url = Raise (RequestException msg))
  \/ (exists resp,
        requests_get w url = Return resp
        /\ (status_error resp <> None
            \/ soup resp = NoHeading \/ soup resp = HeadingNoTable)) ->
  try_url w movie_name url = Return None.
Proof.
  unfold try_url, raise_for_status.
  intros [[msg ->]|(resp & -> & H)]; simpl; [reflexivity|].
  destruct (status_error resp); simpl; [reflexivity|].
  destruct H as [H|[->| ->]]; [congruence | reflexivity | reflexivity].
Qed.

(** X6: Candidate fallback: when the first candidate fails softly - transport
    error, error status, no heading, or no table after it - and the second
    one carries a table with a well-formed row, the fetch succeeds with the
    record set of the second. *)
Theorem fallback_to_second_candidate (w : world) (movie_name : string)
  (year : Z) (primary secondary : string) (resp : response)
  (table_headers : list string) (rows : list (list string)) :
  candidate_urls movie_name year = [primary; secondary] ->
  (exists msg, requests_get w primary = Raise (RequestException msg))
  \/ (exists resp1,
        requests_get w primary = Return resp1
        /\ (status_error resp1 <> None
            \/ soup resp1 = NoHeading \/ soup resp1 = HeadingNoTable)) ->
  requests_get w secondary = Return resp ->
  status_error resp = None ->
  soup resp = HeadingTable (table_headers :: rows) ->
  existsb (well_formed table_headers) rows = true ->
  scrape_daily_box_office w movie_name (Num year)
  = Return (Some (spec_record_set movie_name table_headers rows), None).
Proof.
  intros Hurls Hprimary Hget Hstatus Hsoup Hrows.
  unfold scrape_daily_box_office, scrape_body. cbn [py_int Py.bind].
  rewrite Hurls. cbn [for_urls].
  rewrite (try_url_soft_failure w movie_name primary Hprimary). cbn [Py.bind].
  rewrite (try_url_table w movie_name secondary resp _ Hget Hstatus Hsoup).
  now rewrite parse_table_spec, Hrows.
Qed.

Lemma fallback_to_second_candidate_witness :
  scrape_daily_box_office Demo.w_ok "Movie B" (Num 2016)
  = Return (Some (spec_record_set "Movie B" ["Date"; "Rank"; "Gross"; "Theaters"]
                    [["2015/01/01"; "1"; "$1,234,567"; "3,000"];
                     ["broken"; "row"; "3 cells"];
                     ["2015/01/02"; "2"; "$999"; "2,900"]]), None).
Proof.
  apply (fallback_to_second_candidate
           Demo.w_ok "Movie B" 2016
           "https://www.the-numbers.com/movie/Movie-B-(2016)#tab=box-office"
           "https://www.the-numbers.com/movie/Movie-B#tab=box-office"
           {| status_error := None; soup := Demo.table |}).
  - reflexivity.
  - right. exists {| status_error := Some "404 Client Error"; soup := NoHeading |}.
    split; [reflexivity|]. left. discriminate.
  - reflexivity.
  - reflexivity.
  - reflexivity.
  - reflexivity.
Defined.

(** X7: No fallback after a hard failure: when the request of the first
    candidate raises something other than a request exception, or its page
    has the heading and a table without any row, the fetch fails with that
    exception's message and the second candidate is not tried - whatever it
    holds. *)
Theorem hard_failure_of_first_candidate (w : world) (movie_name : string)
  (year : Z) (primary secondary msg : string) :
  candidate_urls movie_name year = [primary; secondary] ->
  requests_get w primary = Raise (OtherException msg)
  \/ (exists resp,
        requests_get w primary = Return resp
        /\ status_error resp = None
        /\ soup resp = HeadingTable []
        /\ msg = "'NoneType' object has no attribute 'find_all'") ->
  scrape_daily_box_office w movie_name (Num year) = Return (None, Some msg).
Proof.
  intros Hurls Hprimary.
  unfold scrape_daily_box_office, scrape_body. cbn [py_int Py.bind].
  rewrite Hurls. cbn [for_urls].
  assert (Htry : try_url w movie_name primary = Raise (OtherException msg)).
  { destruct Hprimary as [Hget|(resp & Hget & Hstatus & Hsoup & ->)].
    - unfold try_url. now rewrite Hget.
    - now rewrite (try_url_table w movie_name primary resp _ Hget Hstatus Hsoup). }
  now rewrite Htry.
Qed.

Lemma hard_failure_of_first_candidate_witness :
  scrape_daily_box_office Demo.w_ok "Bare" (Num 2015)
  = Return (None, Some "'NoneType' object has no attribute 'find_all'").
Proof.
  apply (hard_failure_of_first_candidate
           Demo.w_ok "Bare" 2015
           "https://www.the-numbers.com/movie/Bare-(2015)#tab=box-office"
           "https://www.the-numbers.com/movie/Bare#tab=box-office").
  - reflexivity.
  - right. exists {| status_error := None; soup := HeadingTable [] |}.
    repeat split.
Defined.

(** ** The records of a success *)

Lemma dict_get_set_same (k v : string) (d : dict) :
  dict_get k (dict_set k v d) = Some v.
Proof.
  induction d as [|[k' v'] d IH]; simpl.
  - now rewrite String.eqb_refl.
  - destruct (String.eqb k' k) eqn:E; simpl.
    + now rewrite String.eqb_refl.
    + now rewrite E.
Qed.

Lemma dict_has_get (k : string) (d : dict) :
  dict_has k d = false -> dict_get k d = None.
Proof.
  unfold dict_has. induction d as [|[k' v'] d IH]; simpl; [reflexivity|].
  intros H. apply orb_false_iff in H as [-> H]. auto.
Qed.

(** [dict_get] after the values of one column went through [f]. *)
Lemma dict_get_column_map (column k : string) (f : string -> string) (d : dict) :
  dict_get k (map (fun kv => if String.eqb (fst kv) column
                             then (fst kv, f (snd kv)) else kv) d)
  = if String.eqb k column then option_map f (dict_get k d) else dict_get k d.
Proof.
  induction d as [|[k' v'] d IH]; simpl; [now destruct (String.eqb k column)|].
  destruct (String.eqb_spec k' column) as [->|Hne]; simpl.
  - destruct (String.eqb_spec column k) as [<-|Hk].
    + now rewrite String.eqb_refl.
    + rewrite IH. reflexivity.
  - destruct (String.eqb_spec k' k) as [->|Hk].
    + destruct (String.eqb_spec k column); [contradiction | reflexivity].
    + exact IH.
Qed.

Lemma dict_keys_column_map (column : string) (f : string -> string) (d : dict) :
  dict_keys (map (fun kv => if String.eqb (fst kv) column
                            then (fst kv, f (snd kv)) else kv) d)
  = dict_keys d.
Proof.
  unfold dict_keys. rewrite map_map. apply map_ext. intros [k v]. simpl.
  now destruct (String.eqb k column).
Qed.

Lemma dict_keys_set (k v1 v2 : string) (d1 d2 : dict) :
  dict_keys d1 = dict_keys d2 ->
  dict_keys (dict_set k v1 d1) = dict_keys (dict_set k v2 d2).
Proof.
  revert d2. induction d1 as [|[k1 x1] d1 IH]; intros [|[k2 x2] d2]; simpl;
    try discriminate; [reflexivity|].
  intros [= -> H]. destruct (String.eqb k2 k); simpl.
  - now rewrite H.
  - f_equal. now apply IH.
Qed.

Lemma dict_keys_of_zip (keys values1 values2 : list string) :
  List.length values1 = List.length values2 ->
  dict_keys (dict_of_zip keys values1) = dict_keys (dict_of_zip keys values2).
Proof.
  unfold dict_of_zip. intros Hlen.
  assert (H : forall d1 d2,
             dict_keys d1 = dict_keys d2 ->
             dict_keys (fold_left (fun d kv => dict_set (fst kv) (snd kv) d)
                                  (combine keys values1) d1)
             = dict_keys (fold_left (fun d kv => dict_set (fst kv) (snd kv) d)
                                    (combine keys values2) d2)).
  { revert values1 values2 Hlen.
    induction keys as [|k keys IH]; intros [|v1 values1] [|v2 values2] Hlen d1 d2 Hd;
      simpl in *; try discriminate; auto.
    apply IH; [congruence|]. now apply dict_keys_set. }
  now apply H.
Qed.

(** The records of [spec_record_set], one by one. *)
Lemma spec_record_set_in (movie_name : string) (table_headers : list string)
  (rows : list (list string)) (record : dict) :
  In record (spec_record_set movie_name table_headers rows) ->
  exists row_data,
    In row_data rows
    /\ well_formed table_headers row_data = true
    /\ let record0 :=
         dict_set "Movie_Name" movie_name (dict_of_zip table_headers row_data) in
       (record = record0 /\ dict_get "Gross" record0 = None)
       \/ record
          = map (fun kv => if String.eqb (fst kv) "Gross"
                           then (fst kv, PyStr.replace "," "" (snd kv)) else kv)
                (map (fun kv => if String.eqb (fst kv) "Gross"
                                then (fst kv, PyStr.replace "$" "" (snd kv)) else kv)
                     record0).
Proof.
  unfold spec_record_set, column_str_replace.
  set (records := map _ (filter _ rows)).
  destruct (has_column "Gross" records) eqn:E; intros Hin.
  - rewrite map_map in Hin. apply in_map_iff in Hin as (record0 & <- & Hin).
    apply in_map_iff in Hin as (row_data & <- & Hin).
    apply filter_In in Hin as [Hin Hwf].
    exists row_data. auto.
  - pose proof Hin as Hrec.
    apply in_map_iff in Hin as (row_data & <- & Hin).
    apply filter_In in Hin as [Hin Hwf].
    exists row_data. split; [exact Hin|]. split; [exact Hwf|].
    left. split; [reflexivity|]. apply dict_has_get.
    unfold has_column in E.
    destruct (dict_has "Gross" _) eqn:Ehas; [|reflexivity].
    assert (existsb (dict_has "Gross") records = true)
      by (apply existsb_exists; eauto).
    congruence.
Qed.

(** X9: Every record of a success carries the identifier it was fetched for in
    its [Movie_Name] field - also when the table has a column of that name. *)
Theorem success_records_carry_the_name (w : world) (movie_name : string)
  (release_year : pynum) (df : dataframe) (err : option string) (record : dict) :
  scrape_daily_box_office w movie_name release_year = Return (Some df, err) ->
  In record df ->
  dict_get "Movie_Name" record = Some movie_name.
Proof.
  intros H Hin. apply scrape_success_inv in H as (year & url & _ & _ & Htry).
  apply try_url_success_inv in Htry as (resp & hs & rows & _ & _ & _ & _ & ->).
  apply spec_record_set_in in Hin as (row_data & _ & _ & [[-> _]| ->]).
  - apply dict_get_set_same.
  - rewrite !dict_get_column_map. simpl. apply dict_get_set_same.
Qed.

Lemma success_records_carry_the_name_witness :
  dict_get "Movie_Name"
    [("Date", "2015/01/02"); ("Rank", "2"); ("Gross", "999");
     ("Theaters", "2,900"); ("Movie_Name", "Movie A")]
  = Some "Movie A".
Proof.
  apply (success_records_carry_the_name
           Demo.w_ok "Movie A" (Num 2015)
           [[("Date", "2015/01/01"); ("Rank", "1"); ("Gross", "1234567");
             ("Theaters", "3,000"); ("Movie_Name", "Movie A")];
            [("Date", "2015/01/02"); ("Rank", "2"); ("Gross", "999");
             ("Theaters", "2,900"); ("Movie_Name", "Movie A")]] None).
  - reflexivity.
  - simpl. auto.
Defined.

(** X10: All records of a success have the same columns in the same order, so
    the frame built from them has no missing cell. *)
Theorem success_records_share_columns (w : world) (movie_name : string)
  (release_year : pynum) (df : dataframe) (err : option string)
  (record1 record2 : dict) :
  scrape_daily_box_office w movie_name release_year = Return (Some df, err) ->
  In record1 df -> In record2 df ->
  dict_keys record1 = dict_keys record2.
Proof.
  intros H Hin1 Hin2.
  apply scrape_success_inv in H as (year & url & _ & _ & Htry).
  apply try_url_success_inv in Htry as (resp & hs & rows & _ & _ & _ & _ & ->).
  assert (Hkeys : forall record,
             In record (spec_record_set movie_name hs rows) ->
             dict_keys record
             = dict_keys (dict_set "Movie_Name" movie_name (dict_of_zip hs hs))).
  { intros record Hin.
    apply spec_record_set_in in Hin as (row_data & _ & Hwf & Hrec).
    apply Nat.eqb_eq in Hwf.
    assert (Hkeys0 : dict_keys (dict_set "Movie_Name" movie_name
                                         (dict_of_zip hs row_data))
                     = dict_keys (dict_set "Movie_Name" movie_name
                                           (dict_of_zip hs hs)))
      by now apply dict_keys_set, dict_keys_of_zip.
    destruct Hrec as [[-> _]| ->]; [exact Hkeys0|].
    now rewrite !dict_keys_column_map. }
  now rewrite (Hkeys record1 Hin1), (Hkeys record2 Hin2).
Qed.

Lemma success_records_share_columns_witness :
  dict_keys [("Date", "2015/01/01"); ("Rank", "1"); ("Gross", "1234567");
             ("Theaters", "3,000"); ("Movie_Name", "Movie A")]
  = dict_keys [("Date", "2015/01/02"); ("Rank", "2"); ("Gross", "999");
               ("Theaters", "2,900"); ("Movie_Name", "Movie A")].
Proof.
  apply (success_records_share_columns
           Demo.w_ok "Movie A" (Num 2015)
           [[("Date", "2015/01/01"); ("Rank", "1"); ("Gross", "1234567");
             ("Theaters", "3,000"); ("Movie_Name", "Movie A")];
            [("Date", "2015/01/02"); ("Rank", "2"); ("Gross", "999");
             ("Theaters", "2,900"); ("Movie_Name", "Movie A")]] None).
  - reflexivity.
  - simpl. auto.
  - simpl. auto.
Defined.

(** X11: In a success no [Gross] value holds a dollar sign or a comma. *)
Theorem success_gross_is_plain (w : world) (movie_name : string)
  (release_year : pynum) (df : dataframe) (err : option string)
  (record : dict) (gross : string) :
  scrape_daily_box_office w movie_name release_year = Return (Some df, err) ->
  In record df ->
  dict_get "Gross" record = Some gross ->
  PyStr.contains "$" gross = false /\ PyStr.contains "," gross = false.
Proof.
  intros H Hin Hgross.
  apply scrape_success_inv in H as (year & url & _ & _ & Htry).
  apply try_url_success_inv in Htry as (resp & hs & rows & _ & _ & _ & _ & ->).
  apply spec_record_set_in in Hin as (row_data & _ & _ & [[-> Hnone]| ->]).
  - congruence.
  - rewrite !dict_get_column_map in Hgross. simpl in Hgross.
    destruct (dict_get "Gross" _) as [v|]; [|discriminate].
    simpl in Hgross. injection Hgross as <-. split.
    + apply replace_from_contains; [reflexivity|]. now apply replace_char_gone.
    + now apply replace_char_gone.
Qed.

Lemma success_gross_is_plain_witness :
  PyStr.contains "$" "1234567" = false /\ PyStr.contains "," "1234567" = false.
Proof.
  apply (success_gross_is_plain
           Demo.w_ok "Movie A" (Num 2015)
           [[("Date", "2015/01/01"); ("Rank", "1"); ("Gross", "1234567");
             ("Theaters", "3,000"); ("Movie_Name", "Movie A")];
            [("Date", "2015/01/02"); ("Rank", "2"); ("Gross", "999");
             ("Theaters", "2,900"); ("Movie_Name", "Movie A")]] None
           [("Date", "2015/01/01"); ("Rank", "1"); ("Gross", "1234567");
            ("Theaters", "3,000"); ("Movie_Name", "Movie A")]).
  - reflexivity.
  - simpl. auto.
  - reflexivity.
Defined.

(** ** More on the workers *)

(** X12: What a worker returns, case by case.  It never raises.  The result
    carries the name and the label of its entry.  It is a success exactly
    when the fetch returned a frame and that frame could be written to the
    entry's file, and then its path is that file relative to the project
    root; otherwise it is a failure with a reason: the fetcher's, or - the
    fetched frame being dropped - the message of the failed write. *)
Theorem process_movie_batch_outcome (w : world) (md : movie_data) :
  let file := movie_filename (md_output_folder md) (md_movie_name md) in
  exists df err,
    scrape_daily_box_office w (md_movie_name md) (md_release_year md)
    = Return (df, err)
    /\ process_movie_batch w md
       = Return
           match df, to_csv w file with
           | Some data, None =>
               Success (md_movie_name md) (md_idx md) data
                       (os_path_relpath w file (md_project_root md))
           | Some _, Some e =>
               Failure (md_movie_name md) (md_idx md) (Some (str e))
           | None, _ => Failure (md_movie_name md) (md_idx md) err
           end
    /\ (df = None -> exists reason, err = Some reason).
Proof. intros file. apply process_movie_batch_cases. Qed.

(** ** More on the loaded catalog *)

(** X13: The catalog is the metadata file without the rows whose release year is
    below 2010 or missing: same rows, same order, title taken as name, an
    existing marker kept. *)
Theorem load_and_validate_metadata_rows (rows : list csv_row) :
  map csv_of_row (load_and_validate_metadata rows)
  = filter (fun c => ge_2010 (csv_release_year c)) rows.
Proof.
  unfold load_and_validate_metadata. generalize 0.
  induction rows as [|c rows IH]; intros label; [reflexivity|].
  cbn [read_csv_from filter release_year].
  destruct (ge_2010 (csv_release_year c)); cbn [map]; rewrite IH; [|reflexivity].
  now destruct c.
Qed.

Lemma read_csv_from_nth (label : Z) (rows : list csv_row) (r : row) :
  In r (read_csv_from label rows) ->
  label <= idx r
  /\ nth_error rows (Z.to_nat (idx r - label)) = Some (csv_of_row r).
Proof.
  revert label. induction rows as [|c rows IH]; intros label; simpl; [tauto|].
  intros [<-|H]; simpl.
  - split; [lia|]. rewrite Z.sub_diag. now destruct c.
  - apply IH in H as [Hle Hnth]. split; [lia|].
    replace (Z.to_nat (idx r - label)) with (S (Z.to_nat (idx r - (label + 1))))
      by lia.
    exact Hnth.
Qed.

(** X14: The label of a catalog row is the position of its row in the metadata
    file, counted from 0; the labels increase along the catalog. *)
Theorem load_and_validate_metadata_labels (rows : list csv_row) :
  (forall r, In r (load_and_validate_metadata rows) ->
             0 <= idx r
             /\ nth_error rows (Z.to_nat (idx r)) = Some (csv_of_row r)
             /\ ge_2010 (release_year r) = true)
  /\ StronglySorted Z.lt (map idx (load_and_validate_metadata rows)).
Proof.
  unfold load_and_validate_metadata. split.
  - intros r Hr. apply filter_In in Hr as [Hr Hyear].
    apply read_csv_from_nth in Hr as [Hle Hnth].
    rewrite Z.sub_0_r in Hnth. auto.
  - generalize 0. induction rows as [|c rows IH]; intros label; [constructor|].
    cbn [read_csv_from filter release_year].
    destruct (ge_2010 (csv_release_year c)); [|apply IH].
    cbn [map idx]. constructor; [apply IH|].
    apply Forall_forall. intros i Hi.
    apply in_map_iff in Hi as (r & <- & Hr).
    apply filter_In in Hr as [Hr _]. apply read_csv_from_labels in Hr. lia.
Qed.

(** ** More on the scheduler *)

Section Idle.

Variable w : world.
Variables metadata_path output_folder project_root : string.
Variables start_row batch_size max_workers : Z.
Variable df : list row.

Hypothesis start_row_nonneg : 0 <= start_row.
Hypothesis batch_size_pos : 1 <= batch_size.

Local Abbreviation batch_entries :=
  (batch_data output_folder project_root start_row batch_size).
Local Abbreviation turn :=
  (run_batch w metadata_path output_folder project_root start_row batch_size
             max_workers).







End Idle.



(** X17: For a catalog with distinct labels, a start row of 0 or more and a
    batch size of 1 or more, which entries make up which batch is fixed by
    the catalog, the start row and the batch size: two runs on the same
    catalog, each with 1 or more workers, a pool that completes every task
    and writes of the progress files that all succeed, submit the same
    entries in every batch, whatever the site answers, however many workers
    there are and in whatever order they finish. *)
Theorem batches_fixed_by_the_catalog (w1 w2 : world)
  (metadata_path output_folder project_root : string)
  (start_row batch_size workers1 workers2 : Z) (df : list row) (k : nat) :
  NoDup (map idx df) ->
  0 <= start_row -> 1 <= batch_size -> 1 <= workers1 -> 1 <= workers2 ->
  completes_all w1 -> completes_all w2 ->
  (forall j, progress_saved w1 metadata_path output_folder j) ->
  (forall j, progress_saved w2 metadata_path output_folder j) ->
  submitted_in k
    (trace (snd (parallel_scrape_movies w1 metadata_path output_folder
                   project_root start_row batch_size workers1 df)))
  = submitted_in k
      (trace (snd (parallel_scrape_movies w2 metadata_path output_folder
                     project_root start_row batch_size workers2 df))).
Proof.
  intros. now rewrite !submitted_in_when_saved.
Qed.

Lemma batches_fixed_by_the_catalog_witness :
  submitted_in 0 (trace (snd (Demo.run Demo.w_ok Demo.catalog 0 2 5)))
  = submitted_in 0 (trace (snd (Demo.run Demo.w_reversed Demo.catalog 0 2 1))).
Proof.
  apply (batches_fixed_by_the_catalog
           Demo.w_ok Demo.w_reversed "meta.csv" "root/out" "root" 0 2 5 1
           Demo.catalog 0).
  - apply load_labels_unique.
  - lia.
  - lia.
  - lia.
  - lia.
  - apply in_order_completes.
  - apply reversed_completes.
  - apply disk_ok_saved.
  - apply disk_ok_saved.
Defined.

(** X16: For a catalog with distinct labels and a start row of 0 or more,
    the catalog a run leaves does not depend on how the work was cut and
    scheduled: two runs against the same site and the same movie files,
    each with a batch size and a worker count of 1 or more, a pool that
    completes every task and writes of the progress files that all succeed,
    give the same catalog, whatever their batch sizes, worker counts and
    orders of completion. *)
Theorem catalog_independent_of_schedule (w : world)
  (progress' : nat -> string -> option exn)
  (order' : nat -> list movie_data -> list movie_data)
  (metadata_path output_folder project_root : string)
  (start_row batch_size batch_size' max_workers max_workers' : Z)
  (df : list row) :
  NoDup (map idx df) ->
  0 <= start_row ->
  1 <= batch_size -> 1 <= batch_size' ->
  1 <= max_workers -> 1 <= max_workers' ->
  completes_all w -> completes_all (reschedule w progress' order') ->
  (forall j, progress_saved w metadata_path output_folder j) ->
  (forall j, progress_saved (reschedule w progress' order') metadata_path
                            output_folder j) ->
  metadata_df
    (snd (parallel_scrape_movies w metadata_path output_folder project_root
                                 start_row batch_size max_workers df))
  = metadata_df
      (snd (parallel_scrape_movies (reschedule w progress' order') metadata_path
              output_folder project_root start_row batch_size' max_workers' df)).
Proof.
  intros. rewrite !catalog_when_saved by assumption. reflexivity.
Qed.

Lemma catalog_independent_of_schedule_witness :
  metadata_df (snd (Demo.run Demo.w_ok Demo.catalog 0 2 5))
  = metadata_df
      (snd (Demo.run (reschedule Demo.w_ok Demo.disk_ok Demo.reversed)
                     Demo.catalog 0 3 1)).
Proof.
  apply (catalog_independent_of_schedule
           Demo.w_ok Demo.disk_ok Demo.reversed "meta.csv" "root/out" "root"
           0 2 3 5 1 Demo.catalog).
  - apply load_labels_unique.
  - lia.
  - lia.
  - lia.
  - lia.
  - lia.
  - apply in_order_completes.
  - intros k l. apply Permutation_sym, Permutation_rev.
  - apply disk_ok_saved.
  - intros j. split; reflexivity.
Defined.

Ltac saved_demo_run :=
  first [ apply load_labels_unique
        | apply in_order_completes
        | apply reversed_completes
        | apply disk_ok_saved
        | lia ].

Lemma catalog_after_saved_run_witness :
  metadata_df (snd (Demo.run Demo.w_ok Demo.catalog 0 2 5))
  = catalog_after_run Demo.w_ok "root/out" "root" 0 Demo.catalog.
Proof.
  apply (catalog_after_saved_run
           Demo.w_ok "meta.csv" "root/out" "root" 0 2 5 Demo.catalog);
    saved_demo_run.
Defined.

Lemma error_log_of_saved_run_witness :
  Permutation
    (error_log (snd (Demo.run Demo.w_ok Demo.catalog 0 2 5)))
    (flat_map (failure_entry Demo.w_ok)
              (map (make_movie_data "root/out" "root")
                   (filtered_entries Demo.catalog 0))).
Proof.
  apply (error_log_of_saved_run
           Demo.w_ok "meta.csv" "root/out" "root" 0 2 5 Demo.catalog);
    saved_demo_run.
Defined.

Lemma every_entry_accounted_for_witness :
  (List.length (all_movies_data (snd (Demo.run Demo.w_ok Demo.catalog 0 2 5)))
   + List.length (error_log (snd (Demo.run Demo.w_ok Demo.catalog 0 2 5)))
   = List.length (filtered_entries Demo.catalog 0))%nat.
Proof.
  apply (every_entry_accounted_for
           Demo.w_ok "meta.csv" "root/out" "root" 0 2 5 Demo.catalog);
    saved_demo_run.
Defined.

Lemma progress_written_for_nonempty_batches_witness :
  In (SavedMetadata 0) (trace (snd (Demo.run Demo.w_ok Demo.resumed 0 1 5)))
  <-> (0 < Z.to_nat (total_batches 0 1 Demo.resumed))%nat
      /\ batch_data "root/out" "root" 0 1 Demo.resumed 0 <> [].
Proof.
  exact (proj1 (progress_written_for_nonempty_batches
                  Demo.w_ok "meta.csv" "root/out" "root" 0 1 5 Demo.resumed
                  (load_labels_unique _) ltac:(lia) ltac:(lia) ltac:(lia)
                  (in_order_completes Demo.disk_ok) 0%nat
                  (disk_ok_saved Demo.in_order))).
Defined.

Lemma combined_file_written_iff_success_witness :
  In SavedCombined (trace (snd (Demo.run Demo.w_ok Demo.catalog 0 2 5)))
  <-> all_movies_data (snd (Demo.run Demo.w_ok Demo.catalog 0 2 5)) <> [].
Proof.
  exact (proj2 (combined_file_written_iff_success
                  Demo.w_ok "meta.csv" "root/out" "root" 0 2 5 Demo.catalog
                  (load_labels_unique _) ltac:(lia) ltac:(lia) ltac:(lia)
                  (in_order_completes Demo.disk_ok)
                  (disk_ok_saved Demo.in_order))).
Defined.

Lemma run_of_failures_only_witness :
  fst (Demo.run Demo.w_ok Demo.unknown 0 2 5) = Return None
  /\ metadata_df (snd (Demo.run Demo.w_ok Demo.unknown 0 2 5)) = Demo.unknown.
Proof.
  destruct (run_of_failures_only
              Demo.w_ok "meta.csv" "root/out" "root" 0 2 5 Demo.unknown)
    as (Hnone & Hsame & _); try saved_demo_run.
  - intros r [<-|[<-|[]]]; reflexivity.
  - split; [exact Hnone | exact Hsame].
Defined.

(** ** The script *)

Lemma iloc_at_in_range {A} (df : list A) (i : Z) :
  - Z.of_nat (List.length df) <= i < Z.of_nat (List.length df) ->
  exists r, iloc_at df i = Return r.
Proof.
  intros Hi. unfold iloc_at.
  set (len := Z.of_nat (List.length df)) in *.
  destruct (nth_error df (Z.to_nat (if i <? 0 then i + len else i))) as [r|] eqn:E.
  - exists r.
    destruct (Z.leb_spec (- len) i); [|lia].
    now destruct (Z.ltb_spec i len); [|lia].
  - apply nth_error_None in E.
    destruct (Z.ltb_spec i 0); unfold len in *; lia.
Qed.

Lemma iloc_at_returns {A} (df : list A) (i : Z) (r : A) :
  iloc_at df i = Return r ->
  - Z.of_nat (List.length df) <= i < Z.of_nat (List.length df).
Proof.
  unfold iloc_at.
  destruct (nth_error df _); [|discriminate].
  destruct (Z.leb_spec (- Z.of_nat (List.length df)) i); [|discriminate].
  destruct (Z.ltb_spec i (Z.of_nat (List.length df))); [|discriminate].
  intros _. lia.
Qed.

(** X25: The script gets as far as [parallel_scrape_movies] exactly when the
    metadata file loads, each of the three answers is blank or an integer -
    a blank standing for 0, 50 and 5 - and the start row indexes a row of
    the catalog, counting from the end when negative.  Otherwise nothing is
    fetched: in particular a start row equal to the number of rows, or any
    start row on an empty catalog, ends the script at line 300. *)
Theorem script_reaches_the_run (w : world) (metadata_path project_root : string)
  (file : option (list csv_row)) (answer1 answer2 answer3 : input_line)
  (st : state) :
  snd (script w metadata_path project_root file answer1 answer2 answer3) = Some st
  <-> exists rows start_row batch_size max_workers,
        file = Some rows
        /\ int_or_default answer1 0 = Return start_row
        /\ int_or_default answer2 50 = Return batch_size
        /\ int_or_default answer3 5 = Return max_workers
        /\ - Z.of_nat (List.length (load_and_validate_metadata rows)) <= start_row
           < Z.of_nat (List.length (load_and_validate_metadata rows))
        /\ st = snd (parallel_scrape_movies w metadata_path
                       (script_output_folder project_root) project_root
                       start_row batch_size max_workers
                       (load_and_validate_metadata rows)).
Proof.
  unfold script. fold (script_output_folder project_root). split.
  - destruct file as [rows|]; cbn [option_map]; [|discriminate].
    destruct (int_or_default answer1 0) as [start_row|]; [|discriminate].
    destruct (int_or_default answer2 50) as [batch_size|]; [|discriminate].
    destruct (int_or_default answer3 5) as [max_workers|]; [|discriminate].
    destruct (iloc_at (load_and_validate_metadata rows) start_row) as [r|] eqn:E;
      [|discriminate].
    apply iloc_at_returns in E. intros H.
    exists rows, start_row, batch_size, max_workers.
    repeat (split; [reflexivity || exact E|]).
    destruct (parallel_scrape_movies _ _ _ _ _ _ _ _) as [[c|e] st'];
      cbn [snd] in *; congruence.
  - intros (rows & start_row & batch_size & max_workers
            & -> & -> & -> & -> & Hrange & ->).
    cbn [option_map].
    destruct (iloc_at_in_range _ _ Hrange) as [r ->].
    now destruct (parallel_scrape_movies _ _ _ _ _ _ _ _) as [[c|e] st'].
Qed.

(** X26: A run with the default answers: when the metadata file loads with at
    least one movie from 2010 on and the progress files can be written, the
    script with three blank answers ends without error, having submitted
    every movie of the catalog that has no marker yet - each one once. *)
Theorem default_run_fetches_every_unprocessed_movie (w : world)
  (metadata_path project_root : string) (rows : list csv_row) :
  load_and_validate_metadata rows <> [] ->
  completes_all w ->
  (forall j, progress_saved w metadata_path (script_output_folder project_root) j) ->
  exists st,
    script w metadata_path project_root (Some rows) Blank Blank Blank
    = (Return tt, Some st)
    /\ submitted (trace st)
       = map (make_movie_data (script_output_folder project_root) project_root)
             (filter (fun r => isna (daily_box_office_path r))
                     (load_and_validate_metadata rows))
    /\ NoDup (submitted (trace st)).
Proof.
  intros Hrows Hpool Hsaved.
  set (df := load_and_validate_metadata rows) in *.
  set (out := script_output_folder project_root) in *.
  assert (Hlabels : NoDup (map idx df)) by apply load_labels_unique.
  pose proof (submitted_when_saved w metadata_path out project_root 0 50 5 df
                Hlabels ltac:(lia) ltac:(lia) ltac:(lia) Hpool Hsaved) as Hsub.
  pose proof (parallel_scrape_movies_saved w metadata_path out project_root 0 50 5
                df Hlabels ltac:(lia) ltac:(lia) ltac:(lia) Hpool Hsaved) as Hrun.
  exists (snd (parallel_scrape_movies w metadata_path out project_root 0 50 5 df)).
  split; [|split].
  - unfold script. fold (script_output_folder project_root). fold out.
    cbn [option_map int_or_default]. fold df.
    destruct (iloc_at_in_range df 0) as [r ->].
    { destruct df; [congruence|]. simpl. lia. }
    destruct (parallel_scrape_movies w metadata_path out project_root 0 50 5 df)
      as [[c|e] st']; [reflexivity | discriminate Hrun].
  - exact Hsub.
  - rewrite Hsub.
    apply (filtered_entries_NoDup out project_root 0 df Hlabels).
Qed.

Lemma default_run_fetches_every_unprocessed_movie_witness :
  exists st,
    script (Demo.world_of Demo.in_order Demo.disk_ok) "meta.csv" "root"
           (Some [Demo.csv "Old Movie" 1999 None; Demo.csv "Movie A" 2015 None])
           Blank Blank Blank
    = (Return tt, Some st)
    /\ submitted (trace st)
       = map (make_movie_data (script_output_folder "root") "root")
             (filter (fun r => isna (daily_box_office_path r))
                     (load_and_validate_metadata
                        [Demo.csv "Old Movie" 1999 None;
                         Demo.csv "Movie A" 2015 None]))
    /\ NoDup (submitted (trace st)).
Proof.
  apply default_run_fetches_every_unprocessed_movie.
  - discriminate.
  - apply in_order_completes.
  - intros j. split; reflexivity.
Defined.

(** ** The cells of a success *)

Lemma dict_get_set_other (k k' v : string) (d : dict) :
  k <> k' -> dict_get k (dict_set k' v d) = dict_get k d.
Proof.
  intros Hne. induction d as [|[k1 v1] d IH]; simpl.
  - now destruct (String.eqb_spec k' k) as [E|_]; [congruence|].
  - destruct (String.eqb_spec k1 k') as [->|Hk1]; simpl.
    + now destruct (String.eqb_spec k' k) as [E|_]; [congruence|].
    + now rewrite IH.
Qed.

Lemma dict_get_fold_absent (k : string) (pairs : list (string * string)) :
  ~ In k (map fst pairs) ->
  forall d,
    dict_get k (fold_left (fun d kv => dict_set (fst kv) (snd kv) d) pairs d)
    = dict_get k d.
Proof.
  induction pairs as [|[k' v'] pairs IH]; intros Hk d; [reflexivity|].
  simpl in *. rewrite IH by tauto. apply dict_get_set_other. intros ->. tauto.
Qed.

(** [dict(zip(keys, values))[key]] under distinct keys: the value at the
    key's position. *)
Lemma dict_get_of_zip (keys values : list string) (i : nat) (key : string) :
  NoDup keys ->
  List.length values = List.length keys ->
  nth_error keys i = Some key ->
  dict_get key (dict_of_zip keys values) = nth_error values i.
Proof.
  unfold dict_of_zip. generalize (@nil (string * string)).
  revert values i.
  induction keys as [|k keys IH]; intros [|v values] i d Hnd Hlen Hkey;
    try discriminate; [now destruct i|].
  inversion Hnd as [|? ? Hk Hnd']; subst.
  destruct i as [|i]; simpl in *.
  - injection Hkey as <-. rewrite dict_get_fold_absent.
    + apply dict_get_set_same.
    + intros Hin. apply Hk. apply in_map_iff in Hin as ([a b] & <- & Hin).
      now apply in_combine_l in Hin.
  - apply IH; auto.
Qed.

Lemma nth_error_map_some {A B} (f : A -> B) (l : list A) (n : nat) (a : A) :
  nth_error l n = Some a -> nth_error (map f l) n = Some (f a).
Proof.
  revert n. induction l as [|x l IH]; intros [|n]; simpl; try discriminate.
  - now intros [= ->].
  - apply IH.
Qed.

(** X8: A success keeps the table as it stands: its records are the well-formed
    data rows of the candidate's table in table order, and - the header
    names being distinct - a record maps each header to the text of the
    row's cell in that column, the [Gross] cell without its dollar signs and
    commas.  (A column named [Movie_Name] is replaced by the identifier.) *)
Theorem success_records_keep_the_cells (w : world) (movie_name : string)
  (release_year : pynum) (df : dataframe) (err : option string) :
  scrape_daily_box_office w movie_name release_year = Return (Some df, err) ->
  exists year url resp table_headers rows,
    release_year = Num year
    /\ In url (candidate_urls movie_name year)
    /\ requests_get w url = Return resp
    /\ soup resp = HeadingTable (table_headers :: rows)
    /\ List.length df = List.length (filter (well_formed table_headers) rows)
    /\ forall n row_data,
         nth_error (filter (well_formed table_headers) rows) n = Some row_data ->
         exists record,
           nth_error df n = Some record
           /\ forall i header,
                NoDup table_headers ->
                nth_error table_headers i = Some header ->
                header <> "Movie_Name" ->
                dict_get header record
                = if String.eqb header "Gross"
                  then option_map
                         (fun cell => PyStr.replace "," "" (PyStr.replace "$" "" cell))
                         (nth_error row_data i)
                  else nth_error row_data i.
Proof.
  intros H. apply scrape_success_inv in H as (year & url & Hyear & Hurl & Htry).
  apply try_url_success_inv in Htry as (resp & hs & rows & Hget & _ & Hsoup & _ & ->).
  exists year, url, resp, hs, rows.
  do 4 (split; [assumption|]). split; [apply spec_record_set_length|].
  intros n row_data Hn.
  assert (Hwf : List.length row_data = List.length hs).
  { apply nth_error_In, filter_In in Hn as [_ Hwf]. now apply Nat.eqb_eq in Hwf. }
  set (record0 := dict_set "Movie_Name" movie_name (dict_of_zip hs row_data)).
  assert (Hcell : forall i header,
             NoDup hs -> nth_error hs i = Some header ->
             header <> "Movie_Name" ->
             dict_get header record0 = nth_error row_data i).
  { intros i header Hnd Hi Hne. unfold record0.
    rewrite dict_get_set_other by exact Hne. now apply dict_get_of_zip. }
  unfold spec_record_set, column_str_replace.
  set (records := map _ (filter _ rows)).
  assert (Hrec : nth_error records n = Some record0)
    by exact (nth_error_map_some
                (fun row => dict_set "Movie_Name" movie_name (dict_of_zip hs row))
                _ _ _ Hn).
  destruct (has_column "Gross" records) eqn:E.
  - eexists. split.
    + rewrite map_map. apply nth_error_map_some. exact Hrec.
    + intros i header Hnd Hi Hne. rewrite !dict_get_column_map.
      rewrite (Hcell i header Hnd Hi Hne).
      destruct (String.eqb header "Gross"); [|reflexivity].
      now destruct (nth_error row_data i).
  - exists record0. split; [exact Hrec|].
    intros i header Hnd Hi Hne. rewrite (Hcell i header Hnd Hi Hne).
    destruct (String.eqb_spec header "Gross") as [->|_]; [|reflexivity].
    exfalso.
    assert (Hnone : dict_get "Gross" record0 = None).
    { apply dict_has_get. unfold has_column in E.
      destruct (dict_has "Gross" record0) eqn:Ehas; [|reflexivity].
      assert (existsb (dict_has "Gross") records = true).
      { apply existsb_exists. exists record0. split; [|exact Ehas].
        now apply nth_error_In in Hrec. }
      congruence. }
    rewrite (Hcell i "Gross" Hnd Hi Hne) in Hnone.
    apply nth_error_None in Hnone.
    assert (i < List.length hs)%nat by (apply nth_error_Some; congruence).
    lia.
Qed.

Lemma success_records_keep_the_cells_witness :
  exists year url resp table_headers rows,
    Num 2015 = Num year
    /\ In url (candidate_urls "Movie A" year)
    /\ requests_get Demo.w_ok url = Return resp
    /\ soup resp = HeadingTable (table_headers :: rows)
    /\ List.length
      [[("Date", "2015/01/01"); ("Rank", "1"); ("Gross", "1234567");
        ("Theaters", "3,000"); ("Movie_Name", "Movie A")];
       [("Date", "2015/01/02"); ("Rank", "2"); ("Gross", "999");
        ("Theaters", "2,900"); ("Movie_Name", "Movie A")]]
    = List.length (filter (well_formed table_headers) rows)
    /\ forall n row_data,
         nth_error (filter (well_formed table_headers) rows) n = Some row_data ->
         exists record,
           nth_error
             [[("Date", "2015/01/01"); ("Rank", "1"); ("Gross", "1234567");
               ("Theaters", "3,000"); ("Movie_Name", "Movie A")];
              [("Date", "2015/01/02"); ("Rank", "2"); ("Gross", "999");
               ("Theaters", "2,900"); ("Movie_Name", "Movie A")]] n
           = Some record
           /\ forall i header,
                NoDup table_headers ->
                nth_error table_headers i = Some header ->
                header <> "Movie_Name" ->
                dict_get header record
                = if String.eqb header "Gross"
                  then option_map
                         (fun cell => PyStr.replace "," "" (PyStr.replace "$" "" cell))
                         (nth_error row_data i)
                  else nth_error row_data i.
Proof.
  apply (success_records_keep_the_cells Demo.w_ok "Movie A" (Num 2015) _ None).
  reflexivity.
Defined.
